(** * MetricFlow: the metric registry and the data-source accessors

    A shallow embedding of
      - [metricflow/model/semantics/metric_semantics.py] (class [MetricSemantics]),
      - [dbt_semantic_interfaces/objects/data_source.py] (class [DataSource]),
    together with the properties the planner specification states about them.

    Python objects are records, [Optional] values are [option]s, a [dict] is an
    insertion-ordered association list, and a method of a class is a
    computation over [self] that either returns a value or raises. *)

From Stdlib Require Import List String Bool Arith Lia Permutation Sorted.
Import ListNotations.
Local Open Scope string_scope.
Local Open Scope list_scope.

(** ** References ([dbt_semantic_interfaces.references])

    Frozen dataclasses: two references are equal when their names are. *)

Record MetricReference : Type := { element_name : string }.
Record MeasureReference : Type := { measure_element_name : string }.

Definition MetricReference_eqb (a b : MetricReference) : bool :=
  String.eqb (element_name a) (element_name b).
Definition MeasureReference_eqb (a b : MeasureReference) : bool :=
  String.eqb (measure_element_name a) (measure_element_name b).

(** ** The Python runtime the methods rely on *)

Module Py.

(** Exceptions, with the data their messages are formatted from. *)
Inductive exn : Type :=
  | MetricNotFoundError (metric_reference : MetricReference)
  | DuplicateMetricError (metric_name : string)
  | NonExistentMeasureError (metric_name : string) (measure_reference : MeasureReference)
  | AssertionError (message : string)
  | KeyError
  | AttributeError (attribute : string).

Inductive outcome (A : Type) : Type :=
  | Returned (a : A)
  | Raised (e : exn).
Arguments Returned {A} a.
Arguments Raised {A} e.

(** A method body: it runs on [self], returns or raises, and leaves [self]
  as the statements executed so far have made it (an exception does not
  roll anything back). *)
Definition M (S A : Type) : Type := S -> outcome A * S.

Definition ret {S A} (a : A) : M S A := fun s => (Returned a, s).
Definition raise {S A} (e : exn) : M S A := fun s => (Raised e, s).
Definition bind {S A B} (m : M S A) (k : A -> M S B) : M S B :=
  fun s => match m s with
         | (Returned a, s') => k a s'
         | (Raised e, s') => (Raised e, s')
         end.
Definition get {S} : M S S := fun s => (Returned s, s).
Definition put {S} (s' : S) : M S unit := fun _ => (Returned tt, s').

(** [for x in xs: body], where the body may [return] from the method:
  [Some r] is such a return, [None] falls through to the next element. *)
Fixpoint for_in {S A R} (xs : list A) (body : A -> M S (option R)) : M S (option R) :=
  match xs with
  | [] => ret None
  | x :: xs' =>
    bind (body x) (fun r =>
      match r with
      | Some v => ret (Some v)
      | None => for_in xs' body
      end)
  end.

(** [for x in xs: body] with a body that only raises or goes on. *)
Fixpoint for_each {S A} (xs : list A) (body : A -> M S unit) : M S unit :=
  match xs with
  | [] => ret tt
  | x :: xs' => bind (body x) (fun _ => for_each xs' body)
  end.

(** [for x in xs: acc = body(acc, x)], the loop that grows a local list. *)
Fixpoint for_acc {S A B} (xs : list A) (acc : B) (body : B -> A -> M S B) : M S B :=
  match xs with
  | [] => ret acc
  | x :: xs' => bind (body acc x) (fun acc' => for_acc xs' acc' body)
  end.

(** Truth value of an [Optional] object whose class defines neither
  [__bool__] nor [__len__]: [None] is false, any object is true. *)
Definition truthy {A} (o : option A) : bool :=
  match o with Some _ => true | None => false end.

(** [xs or []] for an [Optional[List]]. *)
Definition or_empty {A} (o : option (list A)) : list A :=
  match o with Some xs => xs | None => [] end.

(** [x in xs] for a sequence. *)
Definition contains {A} (eqb : A -> A -> bool) (xs : list A) (x : A) : bool :=
  existsb (eqb x) xs.

(** *** [dict]: keys in insertion order, each key once *)
Section Dict.
Context {K V : Type} (eqb : K -> K -> bool).

Definition dict : Type := list (K * V).

(** [d.get(k)] *)
Fixpoint dict_get (d : dict) (k : K) : option V :=
  match d with
  | [] => None
  | (k', v) :: d' => if eqb k k' then Some v else dict_get d' k
  end.

(** [k in d] *)
Definition dict_in (d : dict) (k : K) : bool := truthy (dict_get d k).

(** [d[k]], which raises [KeyError] on a missing key *)
Definition dict_getitem {S} (d : dict) (k : K) : M S V :=
  match dict_get d k with
  | Some v => ret v
  | None => raise KeyError
  end.

(** [d[k] = v]: a present key keeps its place, a new one goes last *)
Fixpoint dict_setitem (d : dict) (k : K) (v : V) : dict :=
  match d with
  | [] => [(k, v)]
  | (k', v') :: d' =>
      if eqb k k' then (k', v) :: d' else (k', v') :: dict_setitem d' k v
  end.

(** [list(d.keys())] *)
Definition dict_keys (d : dict) : list K := map fst d.
End Dict.

(** *** [sorted(xs, key=...)] on string keys: stable, ascending by code point *)
Section Sorted.
Context {A : Type} (key : A -> string).

Fixpoint insert_by (x : A) (l : list A) : list A :=
  match l with
  | [] => [x]
  | y :: l' =>
      if String.leb (key x) (key y) then x :: y :: l' else y :: insert_by x l'
  end.

Definition sorted (l : list A) : list A := fold_right insert_by [] l.
End Sorted.

End Py.
Import Py.

Declare Scope py_scope.
Delimit Scope py_scope with py.
Notation "x <- m ;; k" := (bind m (fun x => k))
  (at level 61, m at next level, right associativity) : py_scope.
Notation "m ;;; k" := (bind m (fun _ => k))
  (at level 61, right associativity) : py_scope.
Local Open Scope py_scope.

(** One iteration of each loop. *)
Lemma for_acc_step {S A B} (x : A) (xs : list A) (acc : B) (body : B -> A -> M S B) (s : S) :
  for_acc (x :: xs) acc body s =
  match body acc x s with
  | (Returned acc', s') => for_acc xs acc' body s'
  | (Raised e, s') => (Raised e, s')
  end.
Proof. reflexivity. Qed.

Lemma for_each_step {S A} (x : A) (xs : list A) (body : A -> M S unit) (s : S) :
  for_each (x :: xs) body s =
  match body x s with
  | (Returned _, s') => for_each xs body s'
  | (Raised e, s') => (Raised e, s')
  end.
Proof. reflexivity. Qed.

Lemma for_in_step {S A R} (x : A) (xs : list A) (body : A -> M S (option R)) (s : S) :
  for_in (x :: xs) body s =
  match body x s with
  | (Returned (Some v), s') => (Returned (Some v), s')
  | (Returned None, s') => for_in xs body s'
  | (Raised e, s') => (Raised e, s')
  end.
Proof.
  cbn. unfold bind. destruct (body x s) as [[[v|]|e] s']; reflexivity.
Qed.

(** Facts about [dict]. *)
Lemma MetricReference_eqb_eq (a b : MetricReference) :
  MetricReference_eqb a b = true <-> a = b.
Proof.
  unfold MetricReference_eqb. rewrite String.eqb_eq.
  destruct a, b; cbn. split; [now intros ->|now intros [=]].
Qed.

Lemma dict_setitem_absent {K V} (eqb : K -> K -> bool) (d : @dict K V) k v :
  dict_get eqb d k = None -> dict_setitem eqb d k v = d ++ [(k, v)].
Proof.
  induction d as [|[k' v'] d IH]; cbn; [reflexivity|].
  destruct (eqb k k'); [discriminate|].
  intros H. now rewrite IH.
Qed.

Lemma dict_get_app {K V} (eqb : K -> K -> bool) (d1 d2 : @dict K V) k :
  dict_get eqb (d1 ++ d2) k =
  match dict_get eqb d1 k with
  | Some v => Some v
  | None => dict_get eqb d2 k
  end.
Proof.
  induction d1 as [|[k' v'] d1 IH]; cbn; [reflexivity|].
  now destruct (eqb k k').
Qed.

(** Facts about [sorted]. *)
Lemma in_insert_by {A} (key : A -> string) (x : A) (l : list A) (z : A) :
  In z (insert_by key x l) <-> z = x \/ In z l.
Proof.
  induction l as [|y l IH]; cbn.
  - intuition.
  - destruct (String.leb (key x) (key y)); cbn; [intuition|].
    rewrite IH. intuition.
Qed.

Lemma in_sorted {A} (key : A -> string) (l : list A) (z : A) :
  In z (sorted key l) <-> In z l.
Proof.
  induction l as [|x l IH]; cbn; [reflexivity|].
  rewrite in_insert_by, IH. intuition.
Qed.

Lemma insert_by_Sorted {A} (key : A -> string) (x : A) (l : list A) :
  Sorted (fun a b => String.leb (key a) (key b) = true) l ->
  Sorted (fun a b => String.leb (key a) (key b) = true) (insert_by key x l).
Proof.
  induction 1 as [|y l Hl IH Hhd]; cbn.
  - repeat constructor.
  - destruct (String.leb (key x) (key y)) eqn:E.
    + constructor; [now constructor|now constructor].
    + constructor; [exact IH|].
      destruct l as [|z l]; cbn.
      * constructor. destruct (String.leb_total (key x) (key y)); congruence.
      * destruct (String.leb (key x) (key z)).
        -- constructor. destruct (String.leb_total (key x) (key y)); congruence.
        -- constructor. now inversion Hhd.
Qed.

Lemma sorted_Sorted {A} (key : A -> string) (l : list A) :
  Sorted (fun a b => String.leb (key a) (key b) = true) (sorted key l).
Proof.
  induction l as [|x l IH]; cbn; [constructor|]. now apply insert_by_Sorted.
Qed.

Lemma String_leb_refl (x : string) : String.leb x x = true.
Proof. now destruct (String.leb_total x x). Qed.

(** [sorted] is stable: the elements of one key keep their order. *)
Lemma insert_by_stable {A} (key : A -> string) (x : A) (l : list A) (name : string) :
  filter (fun y => String.eqb (key y) name) (insert_by key x l) =
  filter (fun y => String.eqb (key y) name) (x :: l).
Proof.
  induction l as [|y l IH]; [reflexivity|].
  cbn [insert_by]. destruct (String.leb (key x) (key y)) eqn:E; [reflexivity|].
  cbn [filter] in *. rewrite IH.
  destruct (String.eqb_spec (key x) name) as [Hx|_];
    destruct (String.eqb_spec (key y) name) as [Hy|_]; try reflexivity.
  rewrite Hx, Hy, String_leb_refl in E. discriminate.
Qed.

Lemma sorted_stable {A} (key : A -> string) (l : list A) (name : string) :
  filter (fun y => String.eqb (key y) name) (sorted key l) =
  filter (fun y => String.eqb (key y) name) l.
Proof.
  induction l as [|x l IH]; [reflexivity|].
  cbn [sorted fold_right]. rewrite insert_by_stable. cbn [filter].
  fold (sorted key l). now rewrite IH.
Qed.

Lemma insert_by_Permutation {A} (key : A -> string) (x : A) (l : list A) :
  Permutation (insert_by key x l) (x :: l).
Proof.
  induction l as [|y l IH]; cbn; [reflexivity|].
  destruct (String.leb (key x) (key y)); [reflexivity|].
  rewrite IH. apply perm_swap.
Qed.

Lemma sorted_Permutation {A} (key : A -> string) (l : list A) :
  Permutation (sorted key l) l.
Proof.
  induction l as [|x l IH]; cbn; [constructor|].
  rewrite insert_by_Permutation. now constructor.
Qed.

Lemma dict_in_false {K V} (eqb : K -> K -> bool) (d : @dict K V) k :
  dict_in eqb d k = false <-> dict_get eqb d k = None.
Proof.
  unfold dict_in. destruct (dict_get eqb d k); cbn; split; congruence.
Qed.


(** ** The metric model ([dbt_semantic_interfaces.objects.metric]) and the specs
       ([metricflow.specs])

    The classes below are declared outside the files at hand.  Their stored
    attributes are record fields; a property whose body is not available
    ([Metric.input_measures], [Metric.measure_references],
    [Metric.input_metrics], [MetricInputMeasure.measure_reference],
    [MetricInput.as_reference]) is carried as one more field, so that nothing
    is assumed about how it is computed.  Types that the methods only pass
    around are parameters of the development. *)

Inductive MetricType : Type := SIMPLE | RATIO | CUMULATIVE | DERIVED.

Definition MetricType_eqb (a b : MetricType) : bool :=
  match a, b with
  | SIMPLE, SIMPLE | RATIO, RATIO | CUMULATIVE, CUMULATIVE | DERIVED, DERIVED => true
  | _, _ => false
  end.

Section MetricSemantics.

Context {WhereFilter WhereFilterSpec ColumnAssociationResolver : Type}.
Context {MetricTimeWindow TimeGranularity NonAdditiveDimensionSpec : Type}.

(** [WhereFilterSpec.create_from_where_filter] and [WhereFilterSpec.combine] *)
Variable create_from_where_filter : WhereFilter -> ColumnAssociationResolver -> WhereFilterSpec.
Variable WhereFilterSpec_combine : WhereFilterSpec -> WhereFilterSpec -> WhereFilterSpec.

Record MetricInputMeasure : Type := {
  MetricInputMeasure_name : string;
  MetricInputMeasure_filter : option WhereFilter;
  MetricInputMeasure_alias : option string;
  MetricInputMeasure_measure_reference : MeasureReference
}.

Record MetricInput : Type := {
  MetricInput_name : string;
  MetricInput_filter : option WhereFilter;
  MetricInput_alias : option string;
  MetricInput_offset_window : option MetricTimeWindow;
  MetricInput_offset_to_grain : option TimeGranularity;
  MetricInput_as_reference : MetricReference
}.

Record MetricTypeParams : Type := {
  MetricTypeParams_metrics : option (list MetricInput)
}.

Record Metric : Type := {
  Metric_name : string;
  Metric_type : MetricType;
  Metric_type_params : MetricTypeParams;
  Metric_filter : option WhereFilter;
  Metric_input_measures : list MetricInputMeasure;
  Metric_measure_references : list MeasureReference;
  Metric_input_metrics : list MetricInput
}.

Record MeasureSpec : Type := {
  MeasureSpec_element_name : string;
  MeasureSpec_non_additive_dimension_spec : option NonAdditiveDimensionSpec
}.

Record MetricInputMeasureSpec : Type := {
  MetricInputMeasureSpec_measure_spec : MeasureSpec;
  MetricInputMeasureSpec_constraint : option WhereFilterSpec;
  MetricInputMeasureSpec_alias : option string
}.

Record MetricSpec : Type := {
  MetricSpec_element_name : string;
  MetricSpec_constraint : option WhereFilterSpec;
  MetricSpec_alias : option string;
  MetricSpec_offset_window : option MetricTimeWindow;
  MetricSpec_offset_to_grain : option TimeGranularity
}.

(** What [MetricSemantics] reads of its two constructor arguments. *)
Record UserConfiguredModel : Type := {
  UserConfiguredModel_metrics : list Metric
}.

Record SemanticModelSemantics : Type := {
  SemanticModelSemantics_measure_references : list MeasureReference;
  SemanticModelSemantics_non_additive_dimension_specs_by_measure :
    @dict MeasureReference NonAdditiveDimensionSpec
}.

(** ** [class MetricSemantics] *)

(** [ValidLinkableSpecResolver] is declared outside the files at hand: a
    resolver is a value of a parameter type, and what its constructor
    returns, or the exception it raises, is a parameter. *)
Context {ValidLinkableSpecResolver : Type}.

Variable ValidLinkableSpecResolver_init :
  UserConfiguredModel -> SemanticModelSemantics -> nat -> outcome ValidLinkableSpecResolver.

(** Modelled from the spec: [MAX_JOIN_HOPS] is declared in
    [semantic_model_join_evaluator], which is not among these sources; the
    specification gives its default. *)
Definition MAX_JOIN_HOPS : nat := 2.

(** The attributes of [self]; [_linkable_spec_resolver] is [None] until
    [__init__] assigns it. *)
Record MetricSemantics : Type := {
  _user_configured_model : UserConfiguredModel;
  _metrics : @dict MetricReference Metric;
  _semantic_model_semantics : SemanticModelSemantics;
  _linkable_spec_resolver : option ValidLinkableSpecResolver
}.

Definition set_metrics (self : MetricSemantics) (d : @dict MetricReference Metric) : MetricSemantics :=
  {| _user_configured_model := _user_configured_model self;
     _metrics := d;
     _semantic_model_semantics := _semantic_model_semantics self;
     _linkable_spec_resolver := _linkable_spec_resolver self |}.

Definition set_linkable_spec_resolver (self : MetricSemantics)
    (resolver : ValidLinkableSpecResolver) : MetricSemantics :=
  {| _user_configured_model := _user_configured_model self;
     _metrics := _metrics self;
     _semantic_model_semantics := _semantic_model_semantics self;
     _linkable_spec_resolver := Some resolver |}.

Definition get_metric (metric_reference : MetricReference) : M MetricSemantics Metric :=
  self <- get ;;
  if negb (dict_in MetricReference_eqb (_metrics self) metric_reference)
  then raise (MetricNotFoundError metric_reference)
  else dict_getitem MetricReference_eqb (_metrics self) metric_reference.

Definition get_metrics (metric_references : list MetricReference) : M MetricSemantics (list Metric) :=
  for_acc metric_references [] (fun res metric_reference =>
    self <- get ;;
    if negb (dict_in MetricReference_eqb (_metrics self) metric_reference)
    then raise (MetricNotFoundError metric_reference)
    else
      metric <- dict_getitem MetricReference_eqb (_metrics self) metric_reference ;;
      ret (res ++ [metric])).

Definition metric_references : M MetricSemantics (list MetricReference) :=
  self <- get ;;
  ret (dict_keys (_metrics self)).

Definition add_metric (metric : Metric) : M MetricSemantics unit :=
  let metric_reference := {| element_name := Metric_name metric |} in
  self <- get ;;
  if dict_in MetricReference_eqb (_metrics self) metric_reference
  then raise (DuplicateMetricError (Metric_name metric))
  else
    for_each (Metric_measure_references metric) (fun measure_reference =>
      self <- get ;;
      if negb (contains MeasureReference_eqb
                 (SemanticModelSemantics_measure_references (_semantic_model_semantics self))
                 measure_reference)
      then raise (NonExistentMeasureError (Metric_name metric) measure_reference)
      else ret tt) ;;;
    self <- get ;;
    put (set_metrics self (dict_setitem MetricReference_eqb (_metrics self) metric_reference metric)).

(** [__init__]: the registry starts empty, every metric of the model is
    added in turn, and the linkable-spec resolver is constructed and kept.
    An exception of either step leaves no object. *)
Definition init (user_configured_model : UserConfiguredModel)
    (semantic_model_semantics : SemanticModelSemantics) : outcome MetricSemantics :=
  let self := {| _user_configured_model := user_configured_model;
                 _metrics := [];
                 _semantic_model_semantics := semantic_model_semantics;
                 _linkable_spec_resolver := None |} in
  match for_each (UserConfiguredModel_metrics user_configured_model) add_metric self with
  | (Returned _, self') =>
      match ValidLinkableSpecResolver_init (_user_configured_model self')
              semantic_model_semantics MAX_JOIN_HOPS with
      | Returned resolver => Returned (set_linkable_spec_resolver self' resolver)
      | Raised e => Raised e
      end
  | (Raised e, _) => Raised e
  end.

Definition measures_for_metric (metric_reference : MetricReference)
    (column_association_resolver : ColumnAssociationResolver)
  : M MetricSemantics (list MetricInputMeasureSpec) :=
  metric <- get_metric metric_reference ;;
  for_acc (Metric_input_measures metric) [] (fun input_measure_specs input_measure =>
    self <- get ;;
    let measure_spec :=
      {| MeasureSpec_element_name := MetricInputMeasure_name input_measure;
         MeasureSpec_non_additive_dimension_spec :=
           dict_get MeasureReference_eqb
             (SemanticModelSemantics_non_additive_dimension_specs_by_measure
                (_semantic_model_semantics self))
             (MetricInputMeasure_measure_reference input_measure) |} in
    let spec :=
      {| MetricInputMeasureSpec_measure_spec := measure_spec;
         MetricInputMeasureSpec_constraint :=
           match MetricInputMeasure_filter input_measure with
           | Some where_filter =>
               Some (create_from_where_filter where_filter column_association_resolver)
           | None => None
           end;
         MetricInputMeasureSpec_alias := MetricInputMeasure_alias input_measure |} in
    ret (input_measure_specs ++ [spec])).

Definition contains_cumulative_or_time_offset_metric (metric_references : list MetricReference)
  : M MetricSemantics bool :=
  r <- for_in metric_references (fun metric_reference =>
         metric <- get_metric metric_reference ;;
         if MetricType_eqb (Metric_type metric) CUMULATIVE then ret (Some true)
         else if MetricType_eqb (Metric_type metric) DERIVED then
           for_in (or_empty (MetricTypeParams_metrics (Metric_type_params metric)))
             (fun input_metric =>
                if truthy (MetricInput_offset_window input_metric)
                   || truthy (MetricInput_offset_to_grain input_metric)
                then ret (Some true)
                else ret None)
         else ret None) ;;
  match r with
  | Some b => ret b
  | None => ret false
  end.

Definition metric_input_specs_for_metric (metric_reference : MetricReference)
    (column_association_resolver : ColumnAssociationResolver)
  : M MetricSemantics (list MetricSpec) :=
  metric <- get_metric metric_reference ;;
  for_acc (Metric_input_metrics metric) [] (fun input_metric_specs input_metric =>
    original_metric_obj <- get_metric (MetricInput_as_reference input_metric) ;;
    let combined_filter :=
      match MetricInput_filter input_metric with
      | Some where_filter =>
          Some (create_from_where_filter where_filter column_association_resolver)
      | None => None
      end in
    let combined_filter :=
      match Metric_filter original_metric_obj with
      | Some where_filter =>
          let original_metric_filter :=
            create_from_where_filter where_filter column_association_resolver in
          match combined_filter with
          | Some c => Some (WhereFilterSpec_combine c original_metric_filter)
          | None => Some original_metric_filter
          end
      | None => combined_filter
      end in
    let spec :=
      {| MetricSpec_element_name := MetricInput_name input_metric;
         MetricSpec_constraint := combined_filter;
         MetricSpec_alias := MetricInput_alias input_metric;
         MetricSpec_offset_window := MetricInput_offset_window input_metric;
         MetricSpec_offset_to_grain := MetricInput_offset_to_grain input_metric |} in
    ret (input_metric_specs ++ [spec])).

(** *** Reading the registry *)

Definition registered (self : MetricSemantics) (r : MetricReference) (metric : Metric) : Prop :=
  dict_get MetricReference_eqb (_metrics self) r = Some metric.

Definition unregistered (self : MetricSemantics) (r : MetricReference) : Prop :=
  dict_get MetricReference_eqb (_metrics self) r = None.

Lemma registered_or_not (self : MetricSemantics) (r : MetricReference) :
  (exists metric, registered self r metric) \/ unregistered self r.
Proof.
  unfold registered, unregistered.
  destruct (dict_get MetricReference_eqb (_metrics self) r) as [metric|].
  - left. now exists metric.
  - now right.
Qed.

Lemma get_metric_registered (self : MetricSemantics) r metric :
  registered self r metric -> get_metric r self = (Returned metric, self).
Proof.
  unfold registered, get_metric, bind, get, dict_in, dict_getitem.
  intros ->. reflexivity.
Qed.

Lemma get_metric_unregistered (self : MetricSemantics) r :
  unregistered self r -> get_metric r self = (Raised (MetricNotFoundError r), self).
Proof.
  unfold unregistered, get_metric, bind, get, dict_in, dict_getitem.
  intros ->. reflexivity.
Qed.

(** The loop of [get_metrics], started with [res] already collected. *)
Local Notation "'get_metrics_body'" :=
  (fun (res : list Metric) (metric_reference : MetricReference) =>
     self <- get ;;
     if negb (dict_in MetricReference_eqb (_metrics self) metric_reference)
     then raise (MetricNotFoundError metric_reference)
     else
       metric <- dict_getitem MetricReference_eqb (_metrics self) metric_reference ;;
       ret (res ++ [metric])).

Lemma get_metrics_body_registered (self : MetricSemantics) res r metric :
  registered self r metric ->
  get_metrics_body res r self = (Returned (res ++ [metric]), self).
Proof.
  unfold registered, bind, get, dict_in, dict_getitem. intros ->. reflexivity.
Qed.

Lemma get_metrics_body_unregistered (self : MetricSemantics) res r :
  unregistered self r ->
  get_metrics_body res r self = (Raised (MetricNotFoundError r), self).
Proof.
  unfold unregistered, bind, get, dict_in, dict_getitem. intros ->. reflexivity.
Qed.

Lemma get_metrics_loop (self : MetricSemantics) (refs : list MetricReference) :
  forall res : list Metric,
    (exists found,
        Forall2 (registered self) refs found /\
        for_acc refs res get_metrics_body self = (Returned (res ++ found), self))
    \/
    (exists before r after found,
        refs = before ++ r :: after /\
        Forall2 (registered self) before found /\
        unregistered self r /\
        for_acc refs res get_metrics_body self = (Raised (MetricNotFoundError r), self)).
Proof.
  induction refs as [|r refs IH]; intros res.
  - left. exists []. split; [constructor|]. cbn. now rewrite app_nil_r.
  - rewrite for_acc_step.
    destruct (registered_or_not self r) as [[metric Hr]|Hr].
    + rewrite (get_metrics_body_registered self res r metric Hr).
      destruct (IH (res ++ [metric]))
        as [(found & Hall & Hrun)|(before & r' & after & found & -> & Hall & Hr' & Hrun)];
        rewrite Hrun.
      * left. exists (metric :: found). split; [now constructor|].
        now rewrite <- app_assoc.
      * right. exists (r :: before), r', after, (metric :: found).
        repeat split; [now constructor|assumption].
    + rewrite (get_metrics_body_unregistered self res r Hr).
      right. exists [], r, refs, []. repeat split; [constructor|assumption].
Qed.

(** C4. [get_metric] returns the metric registered under the reference and
    raises [MetricNotFoundError] (naming the reference) when there is none;
    [get_metrics] either returns the registered metrics, one per reference, in
    the order of the references, or raises [MetricNotFoundError] for the first
    reference that is not registered.  Neither touches the registry. *)
Theorem get_metric_get_metrics_lookup (self : MetricSemantics) :
  (forall r metric, registered self r metric ->
     get_metric r self = (Returned metric, self)) /\
  (forall r, unregistered self r ->
     get_metric r self = (Raised (MetricNotFoundError r), self)) /\
  (forall refs,
     (exists found,
         get_metrics refs self = (Returned found, self) /\
         List.length found = List.length refs /\
         Forall2 (registered self) refs found)
     \/
     (exists before r after found,
         refs = before ++ r :: after /\
         Forall2 (registered self) before found /\
         unregistered self r /\
         get_metrics refs self = (Raised (MetricNotFoundError r), self))).
Proof.
  split; [|split].
  - intros r metric. apply get_metric_registered.
  - intros r. apply get_metric_unregistered.
  - intros refs. unfold get_metrics.
    destruct (get_metrics_loop self refs []) as [(found & Hall & Hrun)|(before & r & after & found & Hsplit & Hall & Hr & Hrun)].
    + left. exists found. repeat split; try assumption.
      symmetry. eapply Forall2_length. eassumption.
    + right. exists before, r, after, found. now repeat split.
Qed.

(** *** Registering metrics *)

(** The first measure reference of the metric that the semantic model lacks:
    where the loop of [add_metric] raises. *)
Definition missing_measure (self : MetricSemantics) (metric : Metric) : option MeasureReference :=
  find (fun measure_reference =>
          negb (contains MeasureReference_eqb
                  (SemanticModelSemantics_measure_references (_semantic_model_semantics self))
                  measure_reference))
       (Metric_measure_references metric).

Definition measures_exist (semantic_model_semantics : SemanticModelSemantics) (metric : Metric) : Prop :=
  Forall (fun measure_reference =>
            contains MeasureReference_eqb
              (SemanticModelSemantics_measure_references semantic_model_semantics)
              measure_reference = true)
         (Metric_measure_references metric).

Definition entry (metric : Metric) : MetricReference * Metric :=
  ({| element_name := Metric_name metric |}, metric).

Lemma missing_measure_none (self : MetricSemantics) (metric : Metric) :
  missing_measure self metric = None <-> measures_exist (_semantic_model_semantics self) metric.
Proof.
  unfold missing_measure, measures_exist.
  induction (Metric_measure_references metric) as [|mr mrs IH]; cbn.
  - split; [constructor|reflexivity].
  - destruct (contains _ _ mr) eqn:E; cbn.
    + rewrite IH. split; [now constructor|now inversion 1].
    + split; [discriminate|]. inversion 1; congruence.
Qed.

Lemma missing_measure_some (self : MetricSemantics) (metric : Metric) mr :
  missing_measure self metric = Some mr ->
  In mr (Metric_measure_references metric) /\
  contains MeasureReference_eqb
    (SemanticModelSemantics_measure_references (_semantic_model_semantics self)) mr = false.
Proof.
  unfold missing_measure. intros H. apply find_some in H as [Hin Hneg].
  split; [assumption|]. now apply negb_true_iff.
Qed.

Lemma add_metric_measure_loop (self : MetricSemantics) (metric_name : string) (mrs : list MeasureReference) :
  for_each mrs (fun measure_reference =>
      self <- get ;;
      if negb (contains MeasureReference_eqb
                 (SemanticModelSemantics_measure_references (_semantic_model_semantics self))
                 measure_reference)
      then raise (NonExistentMeasureError metric_name measure_reference)
      else ret tt) self =
  match find (fun measure_reference =>
                negb (contains MeasureReference_eqb
                        (SemanticModelSemantics_measure_references (_semantic_model_semantics self))
                        measure_reference)) mrs with
  | Some mr => (Raised (NonExistentMeasureError metric_name mr), self)
  | None => (Returned tt, self)
  end.
Proof.
  induction mrs as [|mr mrs IH]; [reflexivity|].
  rewrite for_each_step. unfold bind at 1, get at 1. cbn [find].
  destruct (negb _); [reflexivity|]. exact IH.
Qed.

(** [add_metric] in one equation: the duplicate check, then the measure
    check, then the assignment. *)
Lemma add_metric_run (self : MetricSemantics) (metric : Metric) :
  add_metric metric self =
  if dict_in MetricReference_eqb (_metrics self) {| element_name := Metric_name metric |}
  then (Raised (DuplicateMetricError (Metric_name metric)), self)
  else match missing_measure self metric with
       | Some mr => (Raised (NonExistentMeasureError (Metric_name metric) mr), self)
       | None =>
           (Returned tt,
            set_metrics self
              (dict_setitem MetricReference_eqb (_metrics self)
                 {| element_name := Metric_name metric |} metric))
       end.
Proof.
  unfold add_metric. unfold bind at 1, get at 1.
  destruct (dict_in _ _ _); [reflexivity|].
  unfold bind at 1. rewrite add_metric_measure_loop. fold (missing_measure self metric).
  destruct (missing_measure self metric); reflexivity.
Qed.

Lemma add_metric_returns (self self' : MetricSemantics) (metric : Metric) :
  add_metric metric self = (Returned tt, self') ->
  unregistered self {| element_name := Metric_name metric |} /\
  measures_exist (_semantic_model_semantics self) metric /\
  self' = set_metrics self (_metrics self ++ [entry metric]).
Proof.
  rewrite add_metric_run.
  destruct (dict_in _ _ _) eqn:Hin; [discriminate|].
  apply dict_in_false in Hin.
  destruct (missing_measure self metric) eqn:Hm; [discriminate|].
  intros [= <-]. split; [exact Hin|]. split; [now apply missing_measure_none|].
  now rewrite (dict_setitem_absent _ _ _ _ Hin).
Qed.

(** The loop of [__init__]. *)
Lemma init_loop (metrics : list Metric) :
  forall self self' : MetricSemantics,
    for_each metrics add_metric self = (Returned tt, self') ->
    self' = set_metrics self (_metrics self ++ map entry metrics) /\
    Forall (measures_exist (_semantic_model_semantics self)) metrics /\
    Forall (fun metric => unregistered self {| element_name := Metric_name metric |}) metrics /\
    NoDup (map Metric_name metrics).
Proof.
  induction metrics as [|metric metrics IH]; intros self self'.
  - cbn. intros [= <-]. rewrite app_nil_r.
    split; [now destruct self|]. repeat split; constructor.
  - rewrite for_each_step.
    destruct (add_metric metric self) as [[[]|e] self1] eqn:Hadd; [|discriminate].
    apply add_metric_returns in Hadd as (Hun & Hex & ->).
    intros Hrun. apply IH in Hrun as (-> & Hall & Hfresh & Hnodup). cbn in *.
    split; [now rewrite <- app_assoc|].
    split; [now constructor|].
    assert (Hboth : Forall (fun m => unregistered self {| element_name := Metric_name m |} /\
                                     Metric_name m <> Metric_name metric) metrics).
    { eapply Forall_impl; [|exact Hfresh]. intros m. unfold unregistered. cbn.
      rewrite dict_get_app. destruct (dict_get _ (_metrics self) _); [discriminate|].
      cbn. unfold MetricReference_eqb. cbn.
      destruct (String.eqb_spec (Metric_name m) (Metric_name metric)); [discriminate|].
      now split. }
    split.
    + constructor; [assumption|]. eapply Forall_impl; [|exact Hboth]. now intros m [].
    + constructor; [|assumption]. rewrite in_map_iff. intros (m & Heq & Hin).
      rewrite Forall_forall in Hboth. now apply Hboth in Hin as [_ Hne].
Qed.

Lemma init_registry (user_configured_model : UserConfiguredModel)
    (semantic_model_semantics : SemanticModelSemantics) (self : MetricSemantics) :
  init user_configured_model semantic_model_semantics = Returned self ->
  _metrics self = map entry (UserConfiguredModel_metrics user_configured_model) /\
  _semantic_model_semantics self = semantic_model_semantics /\
  Forall (measures_exist semantic_model_semantics)
    (UserConfiguredModel_metrics user_configured_model) /\
  NoDup (map Metric_name (UserConfiguredModel_metrics user_configured_model)).
Proof.
  unfold init.
  destruct (for_each _ add_metric _) as [[[]|e] self'] eqn:Hrun; [|discriminate].
  destruct (ValidLinkableSpecResolver_init _ _ _) as [resolver|e]; [|discriminate].
  intros [= <-]. apply init_loop in Hrun as (-> & Hall & _ & Hnodup). cbn in *.
  now repeat split.
Qed.

(** C5. [add_metric] raises [DuplicateMetricError] when the metric's name is
    already registered; failing that, it raises [NonExistentMeasureError] when
    one of the metric's measure references is not a measure of the semantic
    model; failing that, it registers the metric under its name.  Hence a
    registry that [__init__] has built holds every metric of the model once,
    under distinct names, and every measure reference of a registered metric
    is a measure of the semantic model. *)
Theorem add_metric_validates :
  (forall (self : MetricSemantics) (metric other : Metric),
      registered self {| element_name := Metric_name metric |} other ->
      add_metric metric self = (Raised (DuplicateMetricError (Metric_name metric)), self)) /\
  (forall (self : MetricSemantics) (metric : Metric),
      unregistered self {| element_name := Metric_name metric |} ->
      ~ measures_exist (_semantic_model_semantics self) metric ->
      exists mr,
        In mr (Metric_measure_references metric) /\
        contains MeasureReference_eqb
          (SemanticModelSemantics_measure_references (_semantic_model_semantics self)) mr = false /\
        add_metric metric self =
          (Raised (NonExistentMeasureError (Metric_name metric) mr), self)) /\
  (forall (self : MetricSemantics) (metric : Metric),
      unregistered self {| element_name := Metric_name metric |} ->
      measures_exist (_semantic_model_semantics self) metric ->
      exists self',
        add_metric metric self = (Returned tt, self') /\
        _metrics self' = _metrics self ++ [entry metric] /\
        registered self' {| element_name := Metric_name metric |} metric) /\
  (forall (user_configured_model : UserConfiguredModel)
          (semantic_model_semantics : SemanticModelSemantics) (self : MetricSemantics),
      init user_configured_model semantic_model_semantics = Returned self ->
      NoDup (dict_keys (_metrics self)) /\
      map snd (_metrics self) = UserConfiguredModel_metrics user_configured_model /\
      Forall (fun item => measures_exist semantic_model_semantics (snd item)) (_metrics self)).
Proof.
  repeat apply conj.
  - intros self metric other Hreg. rewrite add_metric_run.
    unfold dict_in. unfold registered in Hreg. now rewrite Hreg.
  - intros self metric Hun Hmiss. rewrite add_metric_run.
    apply dict_in_false in Hun as Hin. rewrite Hin.
    destruct (missing_measure self metric) as [mr|] eqn:Hm.
    + apply missing_measure_some in Hm as [Hmr Hno]. now exists mr.
    + now apply missing_measure_none in Hm.
  - intros self metric Hun Hex. rewrite add_metric_run.
    apply dict_in_false in Hun as Hin. rewrite Hin.
    apply missing_measure_none in Hex as ->.
    eexists. split; [reflexivity|]. cbn.
    rewrite (dict_setitem_absent _ _ _ _ Hun). split; [reflexivity|].
    unfold registered. cbn. rewrite dict_get_app.
    unfold unregistered in Hun. rewrite Hun. cbn.
    unfold MetricReference_eqb. cbn. now rewrite String.eqb_refl.
  - intros ucm sms self Hinit.
    apply init_registry in Hinit as (Hm & _ & Hall & Hnodup).
    rewrite Hm. unfold dict_keys. rewrite !map_map. cbn. rewrite map_id.
    split; [|split].
    + apply (NoDup_map_inv element_name). now rewrite map_map.
    + reflexivity.
    + rewrite Forall_map. exact Hall.
Qed.

(** C10. A call of [add_metric] that raises leaves [self] as it was: the
    exception is one of the two validation errors, and [metric_references],
    [get_metric] and [get_metrics] give after the call what they gave before. *)
Theorem add_metric_atomic_on_error (self self' : MetricSemantics) (metric : Metric) (e : exn) :
  add_metric metric self = (Raised e, self') ->
  self' = self /\
  (e = DuplicateMetricError (Metric_name metric) \/
   exists mr, e = NonExistentMeasureError (Metric_name metric) mr) /\
  metric_references self' = metric_references self /\
  (forall r, get_metric r self' = get_metric r self) /\
  (forall refs, get_metrics refs self' = get_metrics refs self).
Proof.
  rewrite add_metric_run. intros Hrun.
  assert (Hkeep : self' = self /\
                  (e = DuplicateMetricError (Metric_name metric) \/
                   exists mr, e = NonExistentMeasureError (Metric_name metric) mr)).
  { destruct (dict_in _ _ _).
    - injection Hrun as <- <-. now split; [|left].
    - destruct (missing_measure self metric) as [mr|]; [|discriminate].
      injection Hrun as <- <-. split; [reflexivity|]. right. now exists mr. }
  destruct Hkeep as [-> He]. now repeat split.
Qed.

(** *** Expanding a metric to its input measures *)

(** What one iteration of [measures_for_metric] appends. *)
Definition input_measure_spec (self : MetricSemantics)
    (column_association_resolver : ColumnAssociationResolver)
    (input_measure : MetricInputMeasure) : MetricInputMeasureSpec :=
  {| MetricInputMeasureSpec_measure_spec :=
       {| MeasureSpec_element_name := MetricInputMeasure_name input_measure;
          MeasureSpec_non_additive_dimension_spec :=
            dict_get MeasureReference_eqb
              (SemanticModelSemantics_non_additive_dimension_specs_by_measure
                 (_semantic_model_semantics self))
              (MetricInputMeasure_measure_reference input_measure) |};
     MetricInputMeasureSpec_constraint :=
       match MetricInputMeasure_filter input_measure with
       | Some where_filter =>
           Some (create_from_where_filter where_filter column_association_resolver)
       | None => None
       end;
     MetricInputMeasureSpec_alias := MetricInputMeasure_alias input_measure |}.

(** The expansion of a SIMPLE metric as the specification words it: the
    measure spec of the input measure, the filter of the metric, and the name
    of the metric as alias. *)
Definition spec_simple_metric_input_measure_specs (self : MetricSemantics)
    (column_association_resolver : ColumnAssociationResolver)
    (metric : Metric) : list MetricInputMeasureSpec :=
  map (fun input_measure =>
         {| MetricInputMeasureSpec_measure_spec :=
              MetricInputMeasureSpec_measure_spec
                (input_measure_spec self column_association_resolver input_measure);
            MetricInputMeasureSpec_constraint :=
              match Metric_filter metric with
              | Some where_filter =>
                  Some (create_from_where_filter where_filter column_association_resolver)
              | None => None
              end;
            MetricInputMeasureSpec_alias := Some (Metric_name metric) |})
      (Metric_input_measures metric).

Lemma measures_for_metric_loop (self : MetricSemantics)
    (column_association_resolver : ColumnAssociationResolver)
    (input_measures : list MetricInputMeasure) :
  forall input_measure_specs,
    for_acc input_measures input_measure_specs
      (fun input_measure_specs input_measure =>
         self <- get ;;
         ret (input_measure_specs
                ++ [input_measure_spec self column_association_resolver input_measure])) self =
    (Returned (input_measure_specs
                 ++ map (input_measure_spec self column_association_resolver) input_measures),
     self).
Proof.
  induction input_measures as [|im ims IH]; intros acc.
  - cbn. now rewrite app_nil_r.
  - rewrite for_acc_step. unfold bind at 1, get at 1, ret at 1.
    rewrite IH. cbn. now rewrite <- app_assoc.
Qed.

Lemma measures_for_metric_run (self : MetricSemantics) r metric
    (column_association_resolver : ColumnAssociationResolver) :
  registered self r metric ->
  measures_for_metric r column_association_resolver self =
  (Returned (map (input_measure_spec self column_association_resolver)
               (Metric_input_measures metric)), self).
Proof.
  intros Hr. unfold measures_for_metric. unfold bind at 1.
  rewrite (get_metric_registered self r metric Hr).
  exact (measures_for_metric_loop self column_association_resolver _ []).
Qed.

(** C6 (amended). For a registered SIMPLE metric with its single input
    measure, [measures_for_metric] returns exactly one spec: its measure spec
    carries the name of the input measure and the non-additive dimension spec
    recorded for it, its constraint is the filter of the input measure
    resolved with the column association resolver ([None] when the input
    measure has no filter), and its alias is the alias of the input measure.
    The filter and the name of the metric itself are not used. *)
Theorem measures_for_metric_simple (self : MetricSemantics) (r : MetricReference)
    (metric : Metric) (input_measure : MetricInputMeasure)
    (column_association_resolver : ColumnAssociationResolver) :
  registered self r metric ->
  Metric_type metric = SIMPLE ->
  Metric_input_measures metric = [input_measure] ->
  measures_for_metric r column_association_resolver self =
  (Returned
     [ {| MetricInputMeasureSpec_measure_spec :=
            {| MeasureSpec_element_name := MetricInputMeasure_name input_measure;
               MeasureSpec_non_additive_dimension_spec :=
                 dict_get MeasureReference_eqb
                   (SemanticModelSemantics_non_additive_dimension_specs_by_measure
                      (_semantic_model_semantics self))
                   (MetricInputMeasure_measure_reference input_measure) |};
          MetricInputMeasureSpec_constraint :=
            option_map (fun where_filter =>
                          create_from_where_filter where_filter column_association_resolver)
                       (MetricInputMeasure_filter input_measure);
          MetricInputMeasureSpec_alias := MetricInputMeasure_alias input_measure |} ],
   self).
Proof.
  intros Hr _ Hone. rewrite (measures_for_metric_run self r metric _ Hr), Hone.
  cbn. unfold input_measure_spec.
  now destruct (MetricInputMeasure_filter input_measure).
Qed.

(** *** Cumulative and time-offset metrics *)

(** An input of a derived metric with a time offset. *)
Definition has_offset (input_metric : MetricInput) : Prop :=
  MetricInput_offset_window input_metric <> None \/
  MetricInput_offset_to_grain input_metric <> None.

(** A metric that is cumulative, or derived with an offset on one of the
    inputs it lists itself. *)
Definition cumulative_or_time_offset (metric : Metric) : Prop :=
  Metric_type metric = CUMULATIVE \/
  (Metric_type metric = DERIVED /\
   exists input_metric,
     In input_metric (or_empty (MetricTypeParams_metrics (Metric_type_params metric))) /\
     has_offset input_metric).

(** The metrics a reference expands to, as the specification understands
    expansion: the metric itself and, for a derived metric, the expansions of
    its inputs.  The manifest has no metric that refers to itself, so [fuel]
    only has to exceed the nesting depth. *)
Fixpoint spec_expanded_metrics (fuel : nat) (self : MetricSemantics) (r : MetricReference)
  : list Metric :=
  match fuel with
  | O => []
  | S fuel' =>
      match dict_get MetricReference_eqb (_metrics self) r with
      | None => []
      | Some metric =>
          metric ::
          (if MetricType_eqb (Metric_type metric) DERIVED
           then flat_map (fun input_metric =>
                            spec_expanded_metrics fuel' self (MetricInput_as_reference input_metric))
                         (or_empty (MetricTypeParams_metrics (Metric_type_params metric)))
           else [])
      end
  end.

(** The condition of the specification: some expanded metric is cumulative
    or is derived with an offset input. *)
Definition spec_contains_cumulative_or_time_offset_metric (fuel : nat) (self : MetricSemantics)
    (metric_references : list MetricReference) : Prop :=
  exists r metric,
    In r metric_references /\
    In metric (spec_expanded_metrics fuel self r) /\
    cumulative_or_time_offset metric.

Lemma truthy_true {A} (o : option A) : truthy o = true <-> o <> None.
Proof. destruct o; cbn; split; congruence. Qed.

Lemma MetricType_eqb_eq (a b : MetricType) : MetricType_eqb a b = true <-> a = b.
Proof. destruct a, b; cbn; split; congruence. Qed.

Local Notation "'offset_loop_body'" :=
  (fun input_metric : MetricInput =>
     if truthy (MetricInput_offset_window input_metric)
        || truthy (MetricInput_offset_to_grain input_metric)
     then ret (Some true)
     else ret None).

(** The inner loop returns [True] exactly when an input has an offset. *)
Lemma offset_loop (self : MetricSemantics) (input_metrics : list MetricInput) :
  (for_in input_metrics offset_loop_body self = (Returned (Some true), self) /\
   exists input_metric, In input_metric input_metrics /\ has_offset input_metric)
  \/
  (for_in input_metrics offset_loop_body self = (Returned None, self) /\
   forall input_metric, In input_metric input_metrics -> ~ has_offset input_metric).
Proof.
  induction input_metrics as [|i rest IH].
  - right. split; [reflexivity|]. intros ? [].
  - rewrite for_in_step.
    destruct (truthy (MetricInput_offset_window i) || truthy (MetricInput_offset_to_grain i)) eqn:E.
    + left. split; [reflexivity|]. exists i. split; [now left|].
      apply orb_true_iff in E. unfold has_offset. now rewrite <- !truthy_true.
    + cbn [ret]. unfold ret at 1.
      assert (Hi : ~ has_offset i).
      { unfold has_offset. rewrite <- !truthy_true. apply orb_false_iff in E as [-> ->].
        intros []; discriminate. }
      destruct IH as [[Hrun (j & Hj & Hoff)]|[Hrun Hnone]].
      * left. split; [exact Hrun|]. exists j. split; [now right|assumption].
      * right. split; [exact Hrun|]. intros j [<-|Hj]; [assumption|now apply Hnone].
Qed.

Local Notation "'metric_loop_body'" :=
  (fun metric_reference : MetricReference =>
     metric <- get_metric metric_reference ;;
     if MetricType_eqb (Metric_type metric) CUMULATIVE then ret (Some true)
     else if MetricType_eqb (Metric_type metric) DERIVED then
       for_in (or_empty (MetricTypeParams_metrics (Metric_type_params metric))) offset_loop_body
     else ret None).

(** One iteration of the outer loop on a registered reference. *)
Lemma metric_loop_body_registered (self : MetricSemantics) r metric :
  registered self r metric ->
  (metric_loop_body r self = (Returned (Some true), self) /\ cumulative_or_time_offset metric)
  \/
  (metric_loop_body r self = (Returned None, self) /\ ~ cumulative_or_time_offset metric).
Proof.
  intros Hr. unfold bind. rewrite !(get_metric_registered self r metric Hr).
  unfold cumulative_or_time_offset.
  destruct (MetricType_eqb (Metric_type metric) CUMULATIVE) eqn:Hc.
  - left. split; [reflexivity|]. left. now apply MetricType_eqb_eq.
  - assert (Hnc : Metric_type metric <> CUMULATIVE).
    { intros H. apply MetricType_eqb_eq in H. congruence. }
    destruct (MetricType_eqb (Metric_type metric) DERIVED) eqn:Hd.
    + apply MetricType_eqb_eq in Hd.
      destruct (offset_loop self (or_empty (MetricTypeParams_metrics (Metric_type_params metric))))
        as [[Hrun Hex]|[Hrun Hnone]].
      * left. split; [exact Hrun|]. right. now split.
      * right. split; [exact Hrun|].
        intros [H|[_ (i & Hi & Hoff)]]; [contradiction|]. exact (Hnone i Hi Hoff).
    + right. split; [reflexivity|].
      intros [H|[H _]]; [contradiction|]. apply MetricType_eqb_eq in H. congruence.
Qed.

Lemma metric_loop (self : MetricSemantics) (refs : list MetricReference) :
  Forall (fun r => exists metric, registered self r metric) refs ->
  (for_in refs metric_loop_body self = (Returned (Some true), self) /\
   exists r metric, In r refs /\ registered self r metric /\ cumulative_or_time_offset metric)
  \/
  (for_in refs metric_loop_body self = (Returned None, self) /\
   forall r metric, In r refs -> registered self r metric -> ~ cumulative_or_time_offset metric).
Proof.
  induction 1 as [|r refs [metric Hr] Hall IH].
  - right. split; [reflexivity|]. intros ? ? [].
  - rewrite for_in_step.
    destruct (metric_loop_body_registered self r metric Hr) as [[-> Hyes]|[-> Hno]].
    + left. split; [reflexivity|]. exists r, metric. now repeat split; [left| |].
    + destruct IH as [[Hrun (r' & m' & Hin & Hr' & Hyes)]|[Hrun Hnone]].
      * left. split; [exact Hrun|]. exists r', m'. now repeat split; [right| |].
      * right. split; [exact Hrun|]. intros r' m' [<-|Hin] Hr'.
        -- unfold registered in Hr, Hr'. congruence.
        -- now apply (Hnone r' m').
Qed.

(** C1 (amended). On a sequence of registered metric references,
    [contains_cumulative_or_time_offset_metric] returns [True] exactly when a
    metric named in the sequence is CUMULATIVE, or is DERIVED and one of the
    inputs it lists itself has an [offset_window] or an [offset_to_grain];
    otherwise it returns [False].  The inputs of a derived metric are not
    expanded. *)
Theorem contains_cumulative_or_time_offset_metric_direct
    (self : MetricSemantics) (refs : list MetricReference) :
  Forall (fun r => exists metric, registered self r metric) refs ->
  exists b : bool,
    contains_cumulative_or_time_offset_metric refs self = (Returned b, self) /\
    (b = true <->
     exists r metric,
       In r refs /\ registered self r metric /\
       (Metric_type metric = CUMULATIVE \/
        (Metric_type metric = DERIVED /\
         exists input_metric,
           In input_metric (or_empty (MetricTypeParams_metrics (Metric_type_params metric))) /\
           (MetricInput_offset_window input_metric <> None \/
            MetricInput_offset_to_grain input_metric <> None)))).
Proof.
  intros Hall. unfold contains_cumulative_or_time_offset_metric. unfold bind at 1.
  destruct (metric_loop self refs Hall) as [[-> Hex]|[-> Hnone]].
  - exists true. split; [reflexivity|]. split; [intros _; exact Hex|reflexivity].
  - exists false. split; [reflexivity|]. split; [discriminate|].
    intros (r & metric & Hin & Hr & Hyes). exfalso. exact (Hnone r metric Hin Hr Hyes).
Qed.

(** *** Expanding a derived metric to its input metrics *)

(** The AND-combination of the filters that are present, left to right. *)
Definition and_combination (column_association_resolver : ColumnAssociationResolver)
    (filters : list (option WhereFilter)) : option WhereFilterSpec :=
  fold_left (fun combined filter =>
               match filter with
               | None => combined
               | Some where_filter =>
                   let resolved :=
                     create_from_where_filter where_filter column_association_resolver in
                   match combined with
                   | Some c => Some (WhereFilterSpec_combine c resolved)
                   | None => Some resolved
                   end
               end)
            filters None.

(** The combination of two filters, case by case. *)
Lemma and_combination_two (column_association_resolver : ColumnAssociationResolver)
    (first second : option WhereFilter) :
  and_combination column_association_resolver [first; second] =
  match first, second with
  | Some f, Some g =>
      Some (WhereFilterSpec_combine
              (create_from_where_filter f column_association_resolver)
              (create_from_where_filter g column_association_resolver))
  | Some f, None => Some (create_from_where_filter f column_association_resolver)
  | None, Some g => Some (create_from_where_filter g column_association_resolver)
  | None, None => None
  end.
Proof. destruct first, second; reflexivity. Qed.

(** The spec of one input metric with the filters of [filters] combined. *)
Definition metric_input_spec (column_association_resolver : ColumnAssociationResolver)
    (input_metric : MetricInput) (filters : list (option WhereFilter)) : MetricSpec :=
  {| MetricSpec_element_name := MetricInput_name input_metric;
     MetricSpec_constraint := and_combination column_association_resolver filters;
     MetricSpec_alias := MetricInput_alias input_metric;
     MetricSpec_offset_window := MetricInput_offset_window input_metric;
     MetricSpec_offset_to_grain := MetricInput_offset_to_grain input_metric |}.

(** The input specs of a derived metric as the specification words them: the
    constraint is (derived-metric filter) AND (input filter) AND (original
    metric filter). *)
Definition spec_metric_input_specs_for_metric (self : MetricSemantics)
    (column_association_resolver : ColumnAssociationResolver) (metric : Metric)
  : list MetricSpec :=
  map (fun input_metric =>
         metric_input_spec column_association_resolver input_metric
           [ Metric_filter metric;
             MetricInput_filter input_metric;
             match dict_get MetricReference_eqb (_metrics self)
                     (MetricInput_as_reference input_metric) with
             | Some original_metric_obj => Metric_filter original_metric_obj
             | None => None
             end ])
      (Metric_input_metrics metric).

Local Notation "'input_metric_loop_body' resolver" :=
  (fun (input_metric_specs : list MetricSpec) (input_metric : MetricInput) =>
    original_metric_obj <- get_metric (MetricInput_as_reference input_metric) ;;
    let combined_filter :=
      match MetricInput_filter input_metric with
      | Some where_filter => Some (create_from_where_filter where_filter resolver)
      | None => None
      end in
    let combined_filter :=
      match Metric_filter original_metric_obj with
      | Some where_filter =>
          let original_metric_filter := create_from_where_filter where_filter resolver in
          match combined_filter with
          | Some c => Some (WhereFilterSpec_combine c original_metric_filter)
          | None => Some original_metric_filter
          end
      | None => combined_filter
      end in
    let spec :=
      {| MetricSpec_element_name := MetricInput_name input_metric;
         MetricSpec_constraint := combined_filter;
         MetricSpec_alias := MetricInput_alias input_metric;
         MetricSpec_offset_window := MetricInput_offset_window input_metric;
         MetricSpec_offset_to_grain := MetricInput_offset_to_grain input_metric |} in
    ret (input_metric_specs ++ [spec]))
  (at level 10, resolver at level 9).

Lemma input_metric_loop_body_registered (self : MetricSemantics)
    (resolver : ColumnAssociationResolver) specs input_metric original_metric_obj :
  registered self (MetricInput_as_reference input_metric) original_metric_obj ->
  (input_metric_loop_body resolver) specs input_metric self =
  (Returned (specs ++ [metric_input_spec resolver input_metric
                         [MetricInput_filter input_metric; Metric_filter original_metric_obj]]),
   self).
Proof.
  intros Hr. unfold bind. rewrite (get_metric_registered self _ _ Hr).
  unfold metric_input_spec, and_combination. cbn.
  destruct (MetricInput_filter input_metric), (Metric_filter original_metric_obj); reflexivity.
Qed.

Lemma input_metric_loop (self : MetricSemantics) (resolver : ColumnAssociationResolver)
    (input_metrics : list MetricInput) :
  Forall (fun input_metric =>
            exists original, registered self (MetricInput_as_reference input_metric) original)
         input_metrics ->
  forall acc,
  exists specs,
    for_acc input_metrics acc (input_metric_loop_body resolver) self =
      (Returned (acc ++ specs), self) /\
    Forall2 (fun input_metric spec =>
               exists original,
                 registered self (MetricInput_as_reference input_metric) original /\
                 spec = metric_input_spec resolver input_metric
                          [MetricInput_filter input_metric; Metric_filter original])
            input_metrics specs.
Proof.
  induction 1 as [|input_metric rest [original Hr] Hall IH]; intros acc.
  - exists []. split; [cbn; now rewrite app_nil_r|constructor].
  - rewrite for_acc_step.
    rewrite (input_metric_loop_body_registered self resolver acc input_metric original Hr).
    destruct (IH (acc ++ [metric_input_spec resolver input_metric
                            [MetricInput_filter input_metric; Metric_filter original]]))
      as (specs & Hrun & Hspecs).
    eexists (_ :: specs). split.
    + rewrite Hrun. now rewrite <- app_assoc.
    + constructor; [|exact Hspecs]. exists original. now split.
Qed.

(** C2 (amended). For a registered metric whose input metrics are all
    registered, [metric_input_specs_for_metric] returns one [MetricSpec] per
    input metric, in order; each carries the input's name, alias,
    [offset_window] and [offset_to_grain], and its constraint is (input
    filter) AND (original metric filter), an absent filter being left out
    ([None] when both are absent).  The filter of the derived metric itself
    is not part of the constraint. *)
Theorem metric_input_specs_for_metric_filters (self : MetricSemantics) (r : MetricReference)
    (metric : Metric) (column_association_resolver : ColumnAssociationResolver) :
  registered self r metric ->
  Forall (fun input_metric =>
            exists original, registered self (MetricInput_as_reference input_metric) original)
         (Metric_input_metrics metric) ->
  exists specs,
    metric_input_specs_for_metric r column_association_resolver self = (Returned specs, self) /\
    Forall2 (fun input_metric spec =>
               exists original,
                 registered self (MetricInput_as_reference input_metric) original /\
                 spec =
                 {| MetricSpec_element_name := MetricInput_name input_metric;
                    MetricSpec_constraint :=
                      and_combination column_association_resolver
                        [MetricInput_filter input_metric; Metric_filter original];
                    MetricSpec_alias := MetricInput_alias input_metric;
                    MetricSpec_offset_window := MetricInput_offset_window input_metric;
                    MetricSpec_offset_to_grain := MetricInput_offset_to_grain input_metric |})
            (Metric_input_metrics metric) specs.
Proof.
  intros Hr Hall. unfold metric_input_specs_for_metric. unfold bind at 1.
  rewrite (get_metric_registered self r metric Hr).
  destruct (input_metric_loop self column_association_resolver _ Hall []) as (specs & Hrun & Hspecs).
  exists specs. split; [exact Hrun|exact Hspecs].
Qed.

(** *** Linkable element specs of a set of metrics *)

Context {LinkableInstanceSpec LinkableElementProperties : Type}.

(** [LinkableInstanceSpec.qualified_name] *)
Variable qualified_name : LinkableInstanceSpec -> string.

(** [resolver.get_linkable_elements_for_metrics(...).as_spec_set.as_tuple]:
    the method of the resolver is declared outside the files at hand; the
    tuple of specs of the set it returns, or the exception it raises, is a
    parameter. *)
Variable get_linkable_elements_for_metrics :
  ValidLinkableSpecResolver -> list MetricReference ->
  list LinkableElementProperties -> list LinkableElementProperties ->
  outcome (list LinkableInstanceSpec).

Definition element_specs_for_metrics (metric_references : list MetricReference)
    (with_any_property without_any_property : list LinkableElementProperties)
  : M MetricSemantics (list LinkableInstanceSpec) :=
  self <- get ;;
  match _linkable_spec_resolver self with
  | None => raise (AttributeError "_linkable_spec_resolver")
  | Some resolver =>
      match get_linkable_elements_for_metrics resolver metric_references
              with_any_property without_any_property with
      | Returned all_linkable_specs => ret (sorted qualified_name all_linkable_specs)
      | Raised e => raise e
      end
  end.

(** X18. On an object that holds its resolver, [element_specs_for_metrics]
    returns the specs the resolver answers with, each as often as the
    resolver gives it, in ascending order of qualified name, specs of equal
    qualified name in the order the resolver gave them; an exception of the
    resolver is the exception of the method.  [self] is left as it was. *)
Theorem element_specs_for_metrics_sorted (self : MetricSemantics)
    (resolver : ValidLinkableSpecResolver) (metric_references : list MetricReference)
    (with_any_property without_any_property : list LinkableElementProperties) :
  _linkable_spec_resolver self = Some resolver ->
  (forall all_linkable_specs,
      get_linkable_elements_for_metrics resolver metric_references
        with_any_property without_any_property = Returned all_linkable_specs ->
      exists specs,
        element_specs_for_metrics metric_references with_any_property without_any_property self
          = (Returned specs, self) /\
        Permutation specs all_linkable_specs /\
        Sorted (fun a b => String.leb (qualified_name a) (qualified_name b) = true) specs /\
        (forall name,
            filter (fun spec => String.eqb (qualified_name spec) name) specs =
            filter (fun spec => String.eqb (qualified_name spec) name) all_linkable_specs)) /\
  (forall e,
      get_linkable_elements_for_metrics resolver metric_references
        with_any_property without_any_property = Raised e ->
      element_specs_for_metrics metric_references with_any_property without_any_property self
        = (Raised e, self)).
Proof.
  intros Hresolver. unfold element_specs_for_metrics, bind, get. rewrite Hresolver. split.
  - intros specs ->. exists (sorted qualified_name specs). split; [reflexivity|].
    split; [apply sorted_Permutation|]. split; [apply sorted_Sorted|].
    intros name. apply sorted_stable.
  - now intros e ->.
Qed.

End MetricSemantics.

(** ** [class DataSource] ([dbt_semantic_interfaces.objects.data_source])

    [Dimension] and its validity parameters are declared outside the files at
    hand; the records hold the attributes the accessors below read. *)

Record DimensionValidityParams : Type := {
  DimensionValidityParams_is_start : bool;
  DimensionValidityParams_is_end : bool
}.

Record Dimension : Type := {
  Dimension_name : string;
  Dimension_validity_params : option DimensionValidityParams;
  Dimension_is_partition : bool
}.

Record DataSource : Type := {
  DataSource_name : string;
  DataSource_dimensions : list Dimension
}.

(** [dim.validity_params is not None] *)
Definition has_validity_params (dim : Dimension) : bool :=
  truthy (Dimension_validity_params dim).

(** [dim.validity_params and dim.validity_params.is_start], as a condition *)
Definition is_validity_start (dim : Dimension) : bool :=
  match Dimension_validity_params dim with
  | Some validity_params => DimensionValidityParams_is_start validity_params
  | None => false
  end.

(** [dim.validity_params and dim.validity_params.is_end], as a condition *)
Definition is_validity_end (dim : Dimension) : bool :=
  match Dimension_validity_params dim with
  | Some validity_params => DimensionValidityParams_is_end validity_params
  | None => false
  end.

Definition has_validity_dimensions (self : DataSource) : bool :=
  existsb has_validity_params (DataSource_dimensions self).

Definition validity_start_dimension (self : DataSource) : outcome (option Dimension) :=
  let validity_start_dims := filter is_validity_start (DataSource_dimensions self) in
  match validity_start_dims with
  | [] => Returned None
  | first :: _ =>
      if Nat.eqb (List.length validity_start_dims) 1
      then Returned (Some first)
      else Raised (AssertionError
        "Found more than one validity start dimension. This should have been blocked in validation!")
  end.

Definition validity_end_dimension (self : DataSource) : outcome (option Dimension) :=
  let validity_end_dims := filter is_validity_end (DataSource_dimensions self) in
  match validity_end_dims with
  | [] => Returned None
  | first :: _ =>
      if Nat.eqb (List.length validity_end_dims) 1
      then Returned (Some first)
      else Raised (AssertionError
        "Found more than one validity end dimension. This should have been blocked in validation!")
  end.

(** [partitions] *)
Definition partitions (self : DataSource) : list Dimension :=
  filter Dimension_is_partition (DataSource_dimensions self).

(** The invariant of a validated manifest: no two dimensions of the data
    source (two places in its sequence of dimensions) satisfy [P]. *)
Definition at_most_one (P : Dimension -> bool) (dims : list Dimension) : Prop :=
  forall i j di dj,
    nth_error dims i = Some di -> nth_error dims j = Some dj ->
    P di = true -> P dj = true -> i = j.

Lemma at_most_one_tail (P : Dimension -> bool) d dims :
  at_most_one P (d :: dims) -> at_most_one P dims.
Proof.
  intros H i j di dj Hi Hj Pi Pj.
  assert (S i = S j) by (apply (H (S i) (S j) di dj); assumption).
  congruence.
Qed.

Lemma at_most_one_head (P : Dimension -> bool) d dims :
  at_most_one P (d :: dims) -> P d = true -> filter P dims = [].
Proof.
  intros H Pd.
  assert (Hnone : forall x, In x dims -> P x = false).
  { intros x Hx. destruct (P x) eqn:Px; [|reflexivity].
    apply In_nth_error in Hx as [k Hk].
    now specialize (H 0 (S k) d x eq_refl Hk Pd Px). }
  clear H. induction dims as [|x dims IH]; cbn; [reflexivity|].
  rewrite (Hnone x (or_introl eq_refl)). apply IH. intros y Hy. apply Hnone. now right.
Qed.

(** Under the invariant the comprehension selects nothing, or exactly the one
    dimension that satisfies [P]. *)
Lemma filter_at_most_one (P : Dimension -> bool) (dims : list Dimension) :
  at_most_one P dims ->
  (filter P dims = [] /\ forall d, In d dims -> P d = false) \/
  (exists d, filter P dims = [d] /\ forall d', In d' dims -> P d' = true -> d' = d).
Proof.
  induction dims as [|x dims IH]; intros H.
  - left. split; [reflexivity|]. intros ? [].
  - cbn. destruct (P x) eqn:Px.
    + right. exists x. rewrite (at_most_one_head P x dims H Px). split; [reflexivity|].
      intros d' [<-|Hd'] Pd'; [reflexivity|].
      assert (Hin : In d' (filter P dims)) by (apply filter_In; now split).
      rewrite (at_most_one_head P x dims H Px) in Hin. destruct Hin.
    + destruct (IH (at_most_one_tail P x dims H)) as [[Hf Hnone]|(d & Hf & Huniq)].
      * left. split; [exact Hf|]. intros d [<-|Hd]; [exact Px|now apply Hnone].
      * right. exists d. split; [exact Hf|].
        intros d' [<-|Hd'] Pd'; [congruence|now apply Huniq].
Qed.

(** The invariant, by counting. *)
Lemma at_most_one_count (P : Dimension -> bool) (dims : list Dimension) :
  List.length (filter P dims) <= 1 -> at_most_one P dims.
Proof.
  induction dims as [|x dims IH]; intros Hlen i j di dj Hi Hj Pi Pj.
  - destruct i; discriminate.
  - cbn in Hlen. destruct (P x) eqn:Px.
    + assert (Hnil : filter P dims = []).
      { destruct (filter P dims); [reflexivity|cbn in Hlen; lia]. }
      assert (Hnone : forall k d, nth_error dims k = Some d -> P d = true -> False).
      { intros k d Hk Pd. apply nth_error_In in Hk.
        assert (Hin : In d (filter P dims)) by (apply filter_In; now split).
        rewrite Hnil in Hin. destruct Hin. }
      destruct i as [|i], j as [|j]; cbn in Hi, Hj; try reflexivity; exfalso; eauto.
    + destruct i as [|i]; cbn in Hi; [congruence|].
      destruct j as [|j]; cbn in Hj; [congruence|].
      f_equal. exact (IH Hlen i j di dj Hi Hj Pi Pj).
Qed.

(** The shape the two accessors share, under the invariant. *)
Lemma unique_dimension_accessor (P : Dimension -> bool) (message : string)
    (dims : list Dimension) :
  at_most_one P dims ->
  let result :=
    match filter P dims with
    | [] => Returned None
    | first :: _ =>
        if Nat.eqb (List.length (filter P dims)) 1
        then Returned (Some first)
        else Raised (AssertionError message)
    end in
  ((forall d, In d dims -> P d = false) -> result = Returned None) /\
  (forall d, In d dims -> P d = true -> result = Returned (Some d)) /\
  (forall message', result <> Raised (AssertionError message')).
Proof.
  intros H. destruct (filter_at_most_one P dims H) as [[Hf Hnone]|(d & Hf & Huniq)];
    rewrite Hf; cbn.
  - repeat split; try discriminate.
    intros d Hd Pd. rewrite (Hnone d Hd) in Pd. discriminate.
  - assert (Hd : In d (filter P dims)) by (rewrite Hf; now left).
    apply filter_In in Hd as [Hd Pd].
    repeat split; try discriminate.
    + intros Hnone. rewrite (Hnone d Hd) in Pd. discriminate.
    + intros d' Hd' Pd'. now rewrite (Huniq d' Hd' Pd').
Qed.

(** C7. On a data source with at most one dimension whose validity
    parameters mark the start of the validity window,
    [validity_start_dimension] returns [None] when no dimension is so marked
    and returns that dimension when one is; it does not fail its assertion.
    The same holds of [validity_end_dimension] and the end of the window. *)
Theorem validity_dimension_unique (self : DataSource) :
  (at_most_one is_validity_start (DataSource_dimensions self) ->
   ((forall d, In d (DataSource_dimensions self) -> is_validity_start d = false) ->
    validity_start_dimension self = Returned None) /\
   (forall d, In d (DataSource_dimensions self) -> is_validity_start d = true ->
    validity_start_dimension self = Returned (Some d)) /\
   (forall message, validity_start_dimension self <> Raised (AssertionError message)))
  /\
  (at_most_one is_validity_end (DataSource_dimensions self) ->
   ((forall d, In d (DataSource_dimensions self) -> is_validity_end d = false) ->
    validity_end_dimension self = Returned None) /\
   (forall d, In d (DataSource_dimensions self) -> is_validity_end d = true ->
    validity_end_dimension self = Returned (Some d)) /\
   (forall message, validity_end_dimension self <> Raised (AssertionError message))).
Proof.
  split; intros H.
  - exact (unique_dimension_accessor is_validity_start _ _ H).
  - exact (unique_dimension_accessor is_validity_end _ _ H).
Qed.

(** ** A sample manifest

    The missing types are instantiated by what identifies their values: a
    where filter by its SQL template, a resolved filter spec by its SQL text
    ([combine] parenthesises both sides around AND), a time window by its
    count and granularity, a granularity and a non-additive dimension spec by
    their names, a linkable spec by its qualified name.  The column
    association resolver and the linkable-spec resolver are [tt]. *)

Definition SampleMetric : Type := @Metric string (nat * string) string.
Definition SampleMetricInput : Type := @MetricInput string (nat * string) string.
Definition SampleMetricSemantics : Type := @MetricSemantics string (nat * string) string string unit.

Definition sample_create_from_where_filter (where_filter : string) (_ : unit) : string :=
  where_filter.

Definition sample_combine (a b : string) : string :=
  "(" ++ a ++ ") AND (" ++ b ++ ")".

Definition ref (name : string) : MetricReference := {| element_name := name |}.
Definition measure_ref (name : string) : MeasureReference := {| measure_element_name := name |}.

Definition input_measure (name : string) : @MetricInputMeasure string :=
  {| MetricInputMeasure_name := name;
     MetricInputMeasure_filter := None;
     MetricInputMeasure_alias := None;
     MetricInputMeasure_measure_reference := measure_ref name |}.

Definition input_metric (name : string) (filter : option string) (alias : option string)
    (offset_window : option (nat * string)) : SampleMetricInput :=
  {| MetricInput_name := name;
     MetricInput_filter := filter;
     MetricInput_alias := alias;
     MetricInput_offset_window := offset_window;
     MetricInput_offset_to_grain := None;
     MetricInput_as_reference := ref name |}.

Definition measure_metric (name : string) (type : MetricType) (filter : option string)
    (measure : string) : SampleMetric :=
  {| Metric_name := name;
     Metric_type := type;
     Metric_type_params := {| MetricTypeParams_metrics := None |};
     Metric_filter := filter;
     Metric_input_measures := [input_measure measure];
     Metric_measure_references := [measure_ref measure];
     Metric_input_metrics := [] |}.

Definition derived_metric (name : string) (filter : option string)
    (inputs : list SampleMetricInput) : SampleMetric :=
  {| Metric_name := name;
     Metric_type := DERIVED;
     Metric_type_params := {| MetricTypeParams_metrics := Some inputs |};
     Metric_filter := filter;
     Metric_input_measures := [];
     Metric_measure_references := [];
     Metric_input_metrics := inputs |}.

Definition is_instant : string := "{{ Dimension('booking__is_instant') }}".
Definition in_us : string := "{{ Dimension('listing__country_latest') }} = 'us'".
Definition is_large : string := "{{ Dimension('booking__is_large') }}".

Definition bookings : SampleMetric := measure_metric "bookings" SIMPLE None "bookings".
Definition instant_bookings : SampleMetric :=
  measure_metric "instant_bookings" SIMPLE (Some is_instant) "bookings".
Definition revenue_all_time : SampleMetric :=
  measure_metric "revenue_all_time" CUMULATIVE None "txn_revenue".
Definition bookings_5_day_lag : SampleMetric :=
  derived_metric "bookings_5_day_lag" None
    [input_metric "bookings" None (Some "bookings_5_days_ago") (Some (5, "day"))].
Definition revenue_all_time_doubled : SampleMetric :=
  derived_metric "revenue_all_time_doubled" None
    [input_metric "revenue_all_time" None None None].
Definition bookings_in_us : SampleMetric :=
  derived_metric "bookings_in_us" (Some in_us)
    [input_metric "bookings" None None None].
Definition large_instant_bookings : SampleMetric :=
  derived_metric "large_instant_bookings" None
    [input_metric "instant_bookings" (Some is_large) None None].

Definition sample_model : @UserConfiguredModel string (nat * string) string :=
  {| UserConfiguredModel_metrics :=
       [bookings; instant_bookings; revenue_all_time; bookings_5_day_lag;
        revenue_all_time_doubled; bookings_in_us; large_instant_bookings] |}.

Definition sample_semantic_model_semantics : @SemanticModelSemantics string :=
  {| SemanticModelSemantics_measure_references := [measure_ref "bookings"; measure_ref "txn_revenue"];
     SemanticModelSemantics_non_additive_dimension_specs_by_measure := [] |}.

Definition sample_self : SampleMetricSemantics :=
  {| _user_configured_model := sample_model;
     _metrics := map entry (UserConfiguredModel_metrics sample_model);
     _semantic_model_semantics := sample_semantic_model_semantics;
     _linkable_spec_resolver := Some tt |}.

(** A metric over a measure the semantic model does not have. *)
Definition views : SampleMetric := measure_metric "views" SIMPLE None "views".

(** A resolver whose construction returns, and one whose construction raises. *)
Definition sample_resolver_init (_ : @UserConfiguredModel string (nat * string) string)
    (_ : @SemanticModelSemantics string) (_ : nat) : outcome unit :=
  Returned tt.

Definition failing_resolver_init (_ : @UserConfiguredModel string (nat * string) string)
    (_ : @SemanticModelSemantics string) (_ : nat) : outcome unit :=
  Raised KeyError.

(** What the resolver answers for the metrics over the measure [bookings];
    it knows no other metric. *)
Definition sample_get_linkable_elements_for_metrics (_ : unit)
    (metric_references : list MetricReference) (_ _ : list string) : outcome (list string) :=
  match find (fun r => negb (String.eqb (element_name r) "bookings")) metric_references with
  | Some r => Raised (MetricNotFoundError r)
  | None => Returned ["metric_time__day"; "listing__country_latest"; "booking__is_instant"]
  end.

Example init_sample :
  init sample_resolver_init sample_model sample_semantic_model_semantics = Returned sample_self.
Proof. reflexivity. Qed.

Example metric_references_sample :
  fst (metric_references sample_self) =
  Returned (map ref ["bookings"; "instant_bookings"; "revenue_all_time"; "bookings_5_day_lag";
                     "revenue_all_time_doubled"; "bookings_in_us"; "large_instant_bookings"]).
Proof. reflexivity. Qed.

Example get_metrics_sample :
  get_metrics [ref "revenue_all_time"; ref "bookings"] sample_self =
  (Returned [revenue_all_time; bookings], sample_self).
Proof. reflexivity. Qed.

Example get_metrics_sample_missing :
  get_metrics [ref "bookings"; ref "views"; ref "listings"] sample_self =
  (Raised (MetricNotFoundError (ref "views")), sample_self).
Proof. reflexivity. Qed.

Example add_metric_sample_missing_measure :
  add_metric views sample_self =
  (Raised (NonExistentMeasureError "views" (measure_ref "views")), sample_self).
Proof. reflexivity. Qed.

Example contains_offset_sample :
  fst (contains_cumulative_or_time_offset_metric [ref "bookings"; ref "bookings_5_day_lag"]
         sample_self) = Returned true.
Proof. reflexivity. Qed.

Example contains_offset_sample_none :
  fst (contains_cumulative_or_time_offset_metric [ref "bookings"; ref "bookings_in_us"]
         sample_self) = Returned false.
Proof. reflexivity. Qed.

Example contains_offset_sample_raises_late :
  fst (contains_cumulative_or_time_offset_metric [ref "bookings"; ref "views"; ref "revenue_all_time"]
         sample_self) = Raised (MetricNotFoundError (ref "views")).
Proof. reflexivity. Qed.

Example contains_offset_sample_returns_early :
  fst (contains_cumulative_or_time_offset_metric [ref "revenue_all_time"; ref "views"]
         sample_self) = Returned true.
Proof. reflexivity. Qed.

Example element_specs_sample :
  element_specs_for_metrics (fun qualified_name => qualified_name)
    sample_get_linkable_elements_for_metrics [ref "bookings"] [] [] sample_self =
  (Returned ["booking__is_instant"; "listing__country_latest"; "metric_time__day"], sample_self).
Proof. reflexivity. Qed.

Definition listings : DataSource :=
  {| DataSource_name := "listings";
     DataSource_dimensions :=
       [ {| Dimension_name := "country";
            Dimension_validity_params := None;
            Dimension_is_partition := false |};
         {| Dimension_name := "valid_from";
            Dimension_validity_params :=
              Some {| DimensionValidityParams_is_start := true;
                      DimensionValidityParams_is_end := false |};
            Dimension_is_partition := false |};
         {| Dimension_name := "valid_to";
            Dimension_validity_params :=
              Some {| DimensionValidityParams_is_start := false;
                      DimensionValidityParams_is_end := true |};
            Dimension_is_partition := false |} ] |}.

Definition valid_from_twice : DataSource :=
  {| DataSource_name := "listings";
     DataSource_dimensions :=
       filter is_validity_start (DataSource_dimensions listings)
       ++ filter is_validity_start (DataSource_dimensions listings) |}.

Example validity_start_dimension_sample :
  option_map Dimension_name
    (match validity_start_dimension listings with Returned d => d | Raised _ => None end)
  = Some "valid_from".
Proof. reflexivity. Qed.

Example validity_start_dimension_two :
  exists message, validity_start_dimension valid_from_twice = Raised (AssertionError message).
Proof. eexists. reflexivity. Qed.

(** ** The theorems at the sample manifest *)

Lemma contains_cumulative_or_time_offset_metric_direct_witness :
  Forall (fun r => exists metric, registered sample_self r metric)
    [ref "bookings"; ref "bookings_5_day_lag"] /\
  exists b : bool,
    contains_cumulative_or_time_offset_metric [ref "bookings"; ref "bookings_5_day_lag"]
      sample_self = (Returned b, sample_self) /\
    (b = true <->
     exists r metric,
       In r [ref "bookings"; ref "bookings_5_day_lag"] /\ registered sample_self r metric /\
       (Metric_type metric = CUMULATIVE \/
        (Metric_type metric = DERIVED /\
         exists input_metric,
           In input_metric (or_empty (MetricTypeParams_metrics (Metric_type_params metric))) /\
           (MetricInput_offset_window input_metric <> None \/
            MetricInput_offset_to_grain input_metric <> None)))).
Proof.
  assert (H : Forall (fun r => exists metric, registered sample_self r metric)
                [ref "bookings"; ref "bookings_5_day_lag"]).
  { constructor; [exists bookings; reflexivity|].
    constructor; [exists bookings_5_day_lag; reflexivity|constructor]. }
  split; [exact H|].
  exact (contains_cumulative_or_time_offset_metric_direct sample_self _ H).
Defined.

(** A derived metric over a cumulative one, without offsets: the method
    answers [False], although the expansion contains a cumulative metric. *)
Lemma contains_cumulative_or_time_offset_metric_nested_counterexample :
  contains_cumulative_or_time_offset_metric [ref "revenue_all_time_doubled"] sample_self
    = (Returned false, sample_self) /\
  spec_contains_cumulative_or_time_offset_metric 2 sample_self [ref "revenue_all_time_doubled"].
Proof.
  split; [reflexivity|].
  exists (ref "revenue_all_time_doubled"), revenue_all_time.
  split; [now left|]. split; [cbn; right; now left|now left].
Qed.

Lemma metric_input_specs_for_metric_filters_witness :
  registered sample_self (ref "large_instant_bookings") large_instant_bookings /\
  exists specs,
    metric_input_specs_for_metric sample_create_from_where_filter sample_combine
      (ref "large_instant_bookings") tt sample_self = (Returned specs, sample_self) /\
    Forall2 (fun (input_metric : SampleMetricInput) spec =>
               exists original,
                 registered sample_self (MetricInput_as_reference input_metric) original /\
                 spec =
                 {| MetricSpec_element_name := MetricInput_name input_metric;
                    MetricSpec_constraint :=
                      and_combination sample_create_from_where_filter sample_combine tt
                        [MetricInput_filter input_metric; Metric_filter original];
                    MetricSpec_alias := MetricInput_alias input_metric;
                    MetricSpec_offset_window := MetricInput_offset_window input_metric;
                    MetricSpec_offset_to_grain := MetricInput_offset_to_grain input_metric |})
            (Metric_input_metrics large_instant_bookings) specs.
Proof.
  split; [reflexivity|].
  apply (metric_input_specs_for_metric_filters sample_create_from_where_filter sample_combine
           sample_self (ref "large_instant_bookings") large_instant_bookings tt).
  - reflexivity.
  - constructor; [exists instant_bookings; reflexivity|constructor].
Defined.

Example metric_input_specs_sample :
  fst (metric_input_specs_for_metric sample_create_from_where_filter sample_combine
         (ref "large_instant_bookings") tt sample_self) =
  Returned
    [ {| MetricSpec_element_name := "instant_bookings";
         MetricSpec_constraint :=
           Some "({{ Dimension('booking__is_large') }}) AND ({{ Dimension('booking__is_instant') }})";
         MetricSpec_alias := None;
         MetricSpec_offset_window := None;
         MetricSpec_offset_to_grain := None |} ].
Proof. reflexivity. Qed.

(** A derived metric with a filter of its own, over an unfiltered input: the
    constraint of the input spec is [None], not the derived metric's filter. *)
Lemma metric_input_specs_for_metric_derived_filter_counterexample :
  metric_input_specs_for_metric sample_create_from_where_filter sample_combine
    (ref "bookings_in_us") tt sample_self =
  (Returned [ {| MetricSpec_element_name := "bookings";
                 MetricSpec_constraint := None;
                 MetricSpec_alias := None;
                 MetricSpec_offset_window := None;
                 MetricSpec_offset_to_grain := None |} ],
   sample_self) /\
  spec_metric_input_specs_for_metric sample_create_from_where_filter sample_combine
    sample_self tt bookings_in_us =
  [ {| MetricSpec_element_name := "bookings";
       MetricSpec_constraint := Some in_us;
       MetricSpec_alias := None;
       MetricSpec_offset_window := None;
       MetricSpec_offset_to_grain := None |} ] /\
  fst (metric_input_specs_for_metric sample_create_from_where_filter sample_combine
         (ref "bookings_in_us") tt sample_self) <>
  Returned (spec_metric_input_specs_for_metric sample_create_from_where_filter sample_combine
              sample_self tt bookings_in_us).
Proof.
  split; [reflexivity|]. split; [reflexivity|]. cbn. discriminate.
Qed.

Lemma get_metric_get_metrics_lookup_witness :
  get_metric (ref "bookings") sample_self = (Returned bookings, sample_self) /\
  get_metric (ref "views") sample_self = (Raised (MetricNotFoundError (ref "views")), sample_self).
Proof.
  destruct (get_metric_get_metrics_lookup sample_self) as (Hfound & Hmissing & _).
  split.
  - apply Hfound. reflexivity.
  - apply Hmissing. reflexivity.
Defined.

Lemma add_metric_validates_witness :
  add_metric bookings sample_self =
    (Raised (DuplicateMetricError "bookings"), sample_self) /\
  NoDup (dict_keys (_metrics sample_self)).
Proof.
  destruct (@add_metric_validates string (nat * string) string string unit sample_resolver_init)
    as (Hduplicate & _ & _ & Hbuilt).
  split.
  - apply (Hduplicate sample_self bookings bookings). reflexivity.
  - apply (Hbuilt sample_model sample_semantic_model_semantics sample_self). reflexivity.
Defined.

Lemma add_metric_atomic_on_error_witness :
  add_metric views sample_self =
    (Raised (NonExistentMeasureError "views" (measure_ref "views")), sample_self) /\
  metric_references sample_self = metric_references sample_self /\
  (forall r, get_metric r sample_self = get_metric r sample_self) /\
  (forall refs, get_metrics refs sample_self = get_metrics refs sample_self).
Proof.
  assert (H : add_metric views sample_self =
              (Raised (NonExistentMeasureError "views" (measure_ref "views")), sample_self))
    by reflexivity.
  split; [exact H|].
  destruct (add_metric_atomic_on_error sample_self sample_self views _ H)
    as (_ & _ & Hrefs & Hget & Hgets).
  now repeat split.
Defined.

Lemma measures_for_metric_simple_witness :
  registered sample_self (ref "instant_bookings") instant_bookings /\
  measures_for_metric sample_create_from_where_filter (ref "instant_bookings") tt sample_self =
  (Returned
     [ {| MetricInputMeasureSpec_measure_spec :=
            {| MeasureSpec_element_name := "bookings";
               MeasureSpec_non_additive_dimension_spec := None |};
          MetricInputMeasureSpec_constraint := None;
          MetricInputMeasureSpec_alias := None |} ],
   sample_self).
Proof.
  split; [reflexivity|].
  apply (measures_for_metric_simple sample_create_from_where_filter sample_self
           (ref "instant_bookings") instant_bookings (input_measure "bookings") tt);
    reflexivity.
Defined.

(** A SIMPLE metric with a filter of its own over a measure input without
    filter or alias: the spec returned has neither the metric's filter as
    constraint nor the metric's name as alias. *)
Lemma measures_for_metric_simple_counterexample :
  Metric_type instant_bookings = SIMPLE /\
  measures_for_metric sample_create_from_where_filter (ref "instant_bookings") tt sample_self =
  (Returned
     [ {| MetricInputMeasureSpec_measure_spec :=
            {| MeasureSpec_element_name := "bookings";
               MeasureSpec_non_additive_dimension_spec := None |};
          MetricInputMeasureSpec_constraint := None;
          MetricInputMeasureSpec_alias := None |} ],
   sample_self) /\
  spec_simple_metric_input_measure_specs sample_create_from_where_filter sample_self tt
    instant_bookings =
  [ {| MetricInputMeasureSpec_measure_spec :=
         {| MeasureSpec_element_name := "bookings";
            MeasureSpec_non_additive_dimension_spec := None |};
       MetricInputMeasureSpec_constraint := Some is_instant;
       MetricInputMeasureSpec_alias := Some "instant_bookings" |} ] /\
  fst (measures_for_metric sample_create_from_where_filter (ref "instant_bookings") tt
         sample_self) <>
  Returned (spec_simple_metric_input_measure_specs sample_create_from_where_filter
              sample_self tt instant_bookings).
Proof.
  split; [reflexivity|]. split; [reflexivity|]. split; [reflexivity|]. cbn. discriminate.
Qed.

Lemma validity_dimension_unique_witness :
  at_most_one is_validity_start (DataSource_dimensions listings) /\
  at_most_one is_validity_end (DataSource_dimensions listings) /\
  option_map (option_map Dimension_name)
    (match validity_start_dimension listings with
     | Returned d => Some d
     | Raised _ => None
     end) = Some (Some "valid_from") /\
  (forall message, validity_end_dimension listings <> Raised (AssertionError message)).
Proof.
  assert (Hstart : at_most_one is_validity_start (DataSource_dimensions listings))
    by (apply at_most_one_count; cbn; lia).
  assert (Hend : at_most_one is_validity_end (DataSource_dimensions listings))
    by (apply at_most_one_count; cbn; lia).
  destruct (validity_dimension_unique listings) as [Hs He].
  destruct (Hs Hstart) as (_ & Hfound & _).
  destruct (He Hend) as (_ & _ & Hassert).
  split; [exact Hstart|]. split; [exact Hend|]. split; [|exact Hassert].
  rewrite (Hfound {| Dimension_name := "valid_from";
                     Dimension_validity_params :=
                       Some {| DimensionValidityParams_is_start := true;
                               DimensionValidityParams_is_end := false |};
                     Dimension_is_partition := false |}).
  - reflexivity.
  - cbn. right. now left.
  - reflexivity.
Defined.

(** ** More about [MetricSemantics]: loops over concatenated sequences *)

Lemma for_each_app {S A} (xs ys : list A) (body : A -> M S unit) (s : S) :
  for_each (xs ++ ys) body s =
  match for_each xs body s with
  | (Returned _, s') => for_each ys body s'
  | (Raised e, s') => (Raised e, s')
  end.
Proof.
  revert s. induction xs as [|x xs IH]; intros s; [reflexivity|].
  cbn [app]. rewrite !for_each_step.
  destruct (body x s) as [[[]|e] s']; [apply IH|reflexivity].
Qed.

Lemma for_in_app {S A R} (xs ys : list A) (body : A -> M S (option R)) (s : S) :
  for_in (xs ++ ys) body s =
  match for_in xs body s with
  | (Returned None, s') => for_in ys body s'
  | (Returned (Some v), s') => (Returned (Some v), s')
  | (Raised e, s') => (Raised e, s')
  end.
Proof.
  revert s. induction xs as [|x xs IH]; intros s; [reflexivity|].
  cbn [app]. rewrite !for_in_step.
  destruct (body x s) as [[[v|]|e] s']; [reflexivity|apply IH|reflexivity].
Qed.

Lemma for_acc_app {S A B} (xs ys : list A) (acc : B) (body : B -> A -> M S B) (s : S) :
  for_acc (xs ++ ys) acc body s =
  match for_acc xs acc body s with
  | (Returned acc', s') => for_acc ys acc' body s'
  | (Raised e, s') => (Raised e, s')
  end.
Proof.
  revert acc s. induction xs as [|x xs IH]; intros acc s; [reflexivity|].
  cbn [app]. rewrite !for_acc_step.
  destruct (body acc x s) as [[acc'|e] s']; [apply IH|reflexivity].
Qed.

(** Looking a key up in a [dict] returns a value stored under an equal key. *)
Lemma dict_get_Some_in {K V} (eqb : K -> K -> bool) (d : @dict K V) k v :
  dict_get eqb d k = Some v -> exists k', eqb k k' = true /\ In (k', v) d.
Proof.
  induction d as [|[k' v'] d IH]; cbn; [discriminate|].
  destruct (eqb k k') eqn:E.
  - intros [= ->]. exists k'. split; [assumption|now left].
  - intros H. destruct (IH H) as (k'' & Hk & Hin). exists k''. split; [assumption|now right].
Qed.

(** ** More about [MetricSemantics]: the registry *)

Section Registry.

Context {WhereFilter MetricTimeWindow TimeGranularity NonAdditiveDimensionSpec : Type}.
Context {ValidLinkableSpecResolver : Type}.

Variable ValidLinkableSpecResolver_init :
  @UserConfiguredModel WhereFilter MetricTimeWindow TimeGranularity ->
  @SemanticModelSemantics NonAdditiveDimensionSpec -> nat -> outcome ValidLinkableSpecResolver.

Implicit Types
  (self : @MetricSemantics WhereFilter MetricTimeWindow TimeGranularity NonAdditiveDimensionSpec
            ValidLinkableSpecResolver)
  (metric : @Metric WhereFilter MetricTimeWindow TimeGranularity)
  (metrics : list (@Metric WhereFilter MetricTimeWindow TimeGranularity)).

(** [get_metric] in one equation. *)
Lemma get_metric_run self (r : MetricReference) :
  get_metric r self =
  match dict_get MetricReference_eqb (_metrics self) r with
  | Some metric => (Returned metric, self)
  | None => (Raised (MetricNotFoundError r), self)
  end.
Proof.
  destruct (dict_get MetricReference_eqb (_metrics self) r) as [metric|] eqn:E.
  - now apply get_metric_registered.
  - now apply get_metric_unregistered.
Qed.

Lemma dict_get_entry_other (d : @dict MetricReference (@Metric WhereFilter MetricTimeWindow TimeGranularity))
    metric (r : MetricReference) :
  element_name r <> Metric_name metric ->
  dict_get MetricReference_eqb (d ++ [entry metric]) r = dict_get MetricReference_eqb d r.
Proof.
  intros Hne. rewrite dict_get_app.
  destruct (dict_get MetricReference_eqb d r); [reflexivity|].
  cbn. unfold MetricReference_eqb. cbn.
  now destruct (String.eqb_spec (element_name r) (Metric_name metric)).
Qed.

Lemma dict_get_entries metrics :
  NoDup (map Metric_name metrics) ->
  forall metric, In metric metrics ->
  dict_get MetricReference_eqb (map entry metrics) {| element_name := Metric_name metric |}
  = Some metric.
Proof.
  induction metrics as [|m ms IH]; intros Hnd metric Hin; [destruct Hin|].
  cbn in Hnd. apply NoDup_cons_iff in Hnd as [Hfresh Hnd].
  cbn. unfold MetricReference_eqb. cbn.
  destruct Hin as [<-|Hin].
  - now rewrite String.eqb_refl.
  - destruct (String.eqb_spec (Metric_name metric) (Metric_name m)) as [Heq|_].
    + exfalso. apply Hfresh. rewrite <- Heq. now apply in_map.
    + now apply IH.
Qed.

Lemma dict_in_entries metrics (name : string) :
  dict_in MetricReference_eqb (map entry metrics) {| element_name := name |} = true <->
  In name (map Metric_name metrics).
Proof.
  unfold dict_in. induction metrics as [|m ms IH]; cbn; [split; [discriminate|intros []]|].
  unfold MetricReference_eqb at 1. cbn.
  destruct (String.eqb_spec name (Metric_name m)) as [->|Hne]; cbn.
  - split; [now left|reflexivity].
  - rewrite IH. split; [now right|]. intros [Heq|Hin]; [congruence|assumption].
Qed.

(** X1. A call of [add_metric] that returns has registered the metric under
    its name: [get_metric] with that name now returns it, [get_metric] with
    any other name answers as before the call, the new reference is the last
    of [metric_references], and the semantic model is untouched. *)
Theorem add_metric_then_lookup self self' metric :
  add_metric metric self = (Returned tt, self') ->
  get_metric {| element_name := Metric_name metric |} self' = (Returned metric, self') /\
  (forall r, element_name r <> Metric_name metric ->
     fst (get_metric r self') = fst (get_metric r self)) /\
  metric_references self' =
    (Returned (dict_keys (_metrics self) ++ [{| element_name := Metric_name metric |}]), self') /\
  _semantic_model_semantics self' = _semantic_model_semantics self.
Proof.
  intros Hadd. apply add_metric_returns in Hadd as (Hun & _ & ->).
  repeat split.
  - apply get_metric_registered. unfold registered. cbn.
    rewrite dict_get_app. unfold unregistered in Hun. rewrite Hun. cbn.
    unfold MetricReference_eqb. cbn. now rewrite String.eqb_refl.
  - intros r Hne. rewrite !get_metric_run. cbn.
    rewrite (dict_get_entry_other _ _ _ Hne).
    now destruct (dict_get MetricReference_eqb (_metrics self) r).
  - unfold metric_references, bind, get, ret, dict_keys. cbn. now rewrite map_app.
Qed.

(** The loop of [__init__] on metrics that are all valid. *)
Lemma init_loop_complete metrics :
  forall self,
    NoDup (map Metric_name metrics) ->
    Forall (fun metric => unregistered self {| element_name := Metric_name metric |}) metrics ->
    Forall (measures_exist (_semantic_model_semantics self)) metrics ->
    for_each metrics add_metric self =
    (Returned tt, set_metrics self (_metrics self ++ map entry metrics)).
Proof.
  induction metrics as [|m ms IH]; intros self Hnd Hfresh Hex.
  - cbn. rewrite app_nil_r. now destruct self.
  - cbn in Hnd. apply NoDup_cons_iff in Hnd as [Hm Hnd].
    inversion Hfresh as [|? ? Hun Hfresh']; subst.
    inversion Hex as [|? ? Hexm Hex']; subst.
    rewrite for_each_step, add_metric_run.
    apply dict_in_false in Hun as Hin. rewrite Hin.
    apply missing_measure_none in Hexm as ->.
    rewrite (dict_setitem_absent _ _ _ _ Hun).
    rewrite IH; cbn.
    + now rewrite <- app_assoc.
    + assumption.
    + rewrite Forall_forall in Hfresh' |- *. intros x Hx.
      unfold unregistered, set_metrics. cbn [_metrics].
      rewrite (dict_get_entry_other (_metrics self) m); [now apply Hfresh'|].
      cbn. intros Heq. apply Hm. rewrite <- Heq. now apply in_map.
    + assumption.
Qed.

(** X2. [__init__] returns exactly when the metrics of the model have
    pairwise distinct names and refer only to measures of the semantic model,
    and the construction of the linkable-spec resolver returns; the object it
    returns then holds the metrics of the model, each under its name, in the
    order of the model, and that resolver.  On such metrics an exception of
    the resolver's construction is the exception of [__init__]. *)
Theorem init_succeeds_iff (user_configured_model : @UserConfiguredModel WhereFilter MetricTimeWindow TimeGranularity)
    (semantic_model_semantics : @SemanticModelSemantics NonAdditiveDimensionSpec) :
  (forall self,
      init ValidLinkableSpecResolver_init user_configured_model semantic_model_semantics
        = Returned self <->
      NoDup (map Metric_name (UserConfiguredModel_metrics user_configured_model)) /\
      Forall (measures_exist semantic_model_semantics)
        (UserConfiguredModel_metrics user_configured_model) /\
      exists resolver,
        ValidLinkableSpecResolver_init user_configured_model semantic_model_semantics
          MAX_JOIN_HOPS = Returned resolver /\
        self = {| _user_configured_model := user_configured_model;
                  _metrics := map entry (UserConfiguredModel_metrics user_configured_model);
                  _semantic_model_semantics := semantic_model_semantics;
                  _linkable_spec_resolver := Some resolver |}) /\
  (NoDup (map Metric_name (UserConfiguredModel_metrics user_configured_model)) ->
   Forall (measures_exist semantic_model_semantics)
     (UserConfiguredModel_metrics user_configured_model) ->
   forall e,
     ValidLinkableSpecResolver_init user_configured_model semantic_model_semantics
       MAX_JOIN_HOPS = Raised e ->
     init ValidLinkableSpecResolver_init user_configured_model semantic_model_semantics
       = Raised e).
Proof.
  assert (Hloop :
    NoDup (map Metric_name (UserConfiguredModel_metrics user_configured_model)) ->
    Forall (measures_exist semantic_model_semantics)
      (UserConfiguredModel_metrics user_configured_model) ->
    init ValidLinkableSpecResolver_init user_configured_model semantic_model_semantics =
    match ValidLinkableSpecResolver_init user_configured_model semantic_model_semantics
            MAX_JOIN_HOPS with
    | Returned resolver =>
        Returned {| _user_configured_model := user_configured_model;
                    _metrics := map entry (UserConfiguredModel_metrics user_configured_model);
                    _semantic_model_semantics := semantic_model_semantics;
                    _linkable_spec_resolver := Some resolver |}
    | Raised e => Raised e
    end).
  { intros Hnd Hall. unfold init. rewrite init_loop_complete.
    - cbn. now destruct (ValidLinkableSpecResolver_init _ _ _).
    - assumption.
    - apply Forall_forall. intros m _. reflexivity.
    - assumption. }
  split.
  - intros self. split.
    + intros Hinit. pose proof Hinit as Hreg.
      apply init_registry in Hreg as (_ & _ & Hall & Hnd).
      split; [assumption|]. split; [assumption|].
      rewrite (Hloop Hnd Hall) in Hinit.
      destruct (ValidLinkableSpecResolver_init _ _ _) as [resolver|e]; [|discriminate].
      exists resolver. split; [reflexivity|]. now injection Hinit as <-.
    + intros (Hnd & Hall & resolver & Hresolver & ->).
      now rewrite (Hloop Hnd Hall), Hresolver.
  - intros Hnd Hall e He. now rewrite (Hloop Hnd Hall), He.
Qed.

(** X3. [__init__] fails at the first metric of the model that is invalid,
    the metrics before it being valid: with [DuplicateMetricError] naming it
    when an earlier metric has its name, and otherwise with
    [NonExistentMeasureError] naming it and the first of its measure
    references that the semantic model lacks. *)
Theorem init_reports_first_invalid
    (user_configured_model : @UserConfiguredModel WhereFilter MetricTimeWindow TimeGranularity)
    (semantic_model_semantics : @SemanticModelSemantics NonAdditiveDimensionSpec)
    metrics metric (after : list (@Metric WhereFilter MetricTimeWindow TimeGranularity)) :
  UserConfiguredModel_metrics user_configured_model = metrics ++ metric :: after ->
  NoDup (map Metric_name metrics) ->
  Forall (measures_exist semantic_model_semantics) metrics ->
  (In (Metric_name metric) (map Metric_name metrics) ->
   init ValidLinkableSpecResolver_init user_configured_model semantic_model_semantics =
     Raised (DuplicateMetricError (Metric_name metric))) /\
  (~ In (Metric_name metric) (map Metric_name metrics) ->
   forall measure_reference,
     find (fun measure_reference =>
             negb (contains MeasureReference_eqb
                     (SemanticModelSemantics_measure_references semantic_model_semantics)
                     measure_reference))
          (Metric_measure_references metric) = Some measure_reference ->
     init ValidLinkableSpecResolver_init user_configured_model semantic_model_semantics =
       Raised (NonExistentMeasureError (Metric_name metric) measure_reference)).
Proof.
  intros Hmetrics Hnd Hall.
  assert (Hrun : forall self0 : @MetricSemantics WhereFilter MetricTimeWindow TimeGranularity
                                  NonAdditiveDimensionSpec ValidLinkableSpecResolver,
             self0 = {| _user_configured_model := user_configured_model;
                        _metrics := [];
                        _semantic_model_semantics := semantic_model_semantics;
                        _linkable_spec_resolver := None |} ->
             for_each (metrics ++ metric :: after) add_metric self0 =
             match add_metric metric (set_metrics self0 (map entry metrics)) with
             | (Returned _, s') => for_each after add_metric s'
             | (Raised e, s') => (Raised e, s')
             end).
  { intros self0 ->. rewrite for_each_app, init_loop_complete.
    - now rewrite for_each_step.
    - assumption.
    - apply Forall_forall. intros m _. reflexivity.
    - assumption. }
  unfold init. rewrite Hmetrics. rewrite (Hrun _ eq_refl). rewrite add_metric_run. cbn.
  split.
  - intros Hin. apply dict_in_entries in Hin. now rewrite Hin.
  - intros Hnin mr Hfind.
    destruct (dict_in MetricReference_eqb (map entry metrics) _) eqn:Hin.
    + apply dict_in_entries in Hin. contradiction.
    + unfold missing_measure. cbn. now rewrite Hfind.
Qed.

Lemma registered_functional self r metric metric' :
  registered self r metric -> registered self r metric' -> metric = metric'.
Proof. unfold registered. congruence. Qed.

(** [get_metrics] on references that are all registered. *)
Lemma get_metrics_registered self (refs : list MetricReference) found :
  Forall2 (registered self) refs found ->
  get_metrics refs self = (Returned found, self).
Proof.
  intros Hall. unfold get_metrics.
  destruct (get_metrics_loop self refs [])
    as [(found' & Hall' & Hrun)|(before & r & after & found' & -> & _ & Hr & _)].
  - rewrite Hrun. cbn. f_equal. f_equal.
    clear Hrun. revert found' Hall'. induction Hall as [|r m refs ms Hr _ IH]; intros found' Hall'.
    + now inversion Hall'.
    + inversion Hall' as [|? m' ? ms' Hr' Hrest]; subst.
      f_equal; [exact (registered_functional _ _ _ _ Hr' Hr)|now apply IH].
  - exfalso. apply Forall2_app_inv_l in Hall as (l1 & l2 & _ & Hcons & _).
    inversion Hcons as [|? m ? ? Hreg]; subst.
    unfold registered in Hreg. unfold unregistered in Hr. congruence.
Qed.

(** X4. In a registry that [__init__] has built, [get_metrics] applied to
    [metric_references] returns the metrics of the model, in the order of the
    model, and a reference is registered only to a metric of the model that
    bears the reference's name. *)
Theorem init_metric_references_round_trip
    (user_configured_model : @UserConfiguredModel WhereFilter MetricTimeWindow TimeGranularity)
    (semantic_model_semantics : @SemanticModelSemantics NonAdditiveDimensionSpec) self :
  init ValidLinkableSpecResolver_init user_configured_model semantic_model_semantics
    = Returned self ->
  (exists refs,
      metric_references self = (Returned refs, self) /\
      List.length refs = List.length (UserConfiguredModel_metrics user_configured_model) /\
      get_metrics refs self =
        (Returned (UserConfiguredModel_metrics user_configured_model), self)) /\
  (forall r metric,
      registered self r metric ->
      Metric_name metric = element_name r /\
      In metric (UserConfiguredModel_metrics user_configured_model)).
Proof.
  intros Hinit. apply init_registry in Hinit as (Hm & _ & _ & Hnd). split.
  - exists (dict_keys (_metrics self)). split; [reflexivity|].
    rewrite Hm. unfold dict_keys. rewrite map_map, length_map. split; [reflexivity|].
    apply get_metrics_registered.
    assert (Hall : Forall (fun metric => registered self {| element_name := Metric_name metric |} metric)
                     (UserConfiguredModel_metrics user_configured_model)).
    { apply Forall_forall. intros m Hin. unfold registered. rewrite Hm.
      now apply dict_get_entries. }
    clear Hm Hnd. induction Hall; cbn; constructor; assumption.
  - intros r metric Hr. unfold registered in Hr. rewrite Hm in Hr.
    apply dict_get_Some_in in Hr as (k & Hk & Hin).
    apply MetricReference_eqb_eq in Hk as ->.
    apply in_map_iff in Hin as (m & [= <- <-] & Hin). now split.
Qed.

(** [get_metrics] either returns the metrics registered under the
    references or raises. *)
Lemma get_metrics_returns_or_raises self (refs : list MetricReference) :
  (exists found, get_metrics refs self = (Returned found, self) /\
                 Forall2 (registered self) refs found) \/
  (exists r, get_metrics refs self = (Raised (MetricNotFoundError r), self)).
Proof.
  unfold get_metrics.
  destruct (get_metrics_loop self refs [])
    as [(found & Hall & Hrun)|(before & r & after & found & _ & _ & _ & Hrun)].
  - left. exists found. now split.
  - right. now exists r.
Qed.

(** X5. [get_metrics] of a concatenation: when it returns on both parts it
    returns the concatenation of the two results, and an exception of the
    first part is the exception of the whole; on a single reference it is
    [get_metric], with the result in a list. *)
Theorem get_metrics_app self (refs refs' : list MetricReference) :
  (forall found found',
      get_metrics refs self = (Returned found, self) ->
      get_metrics refs' self = (Returned found', self) ->
      get_metrics (refs ++ refs') self = (Returned (found ++ found'), self)) /\
  (forall e,
      get_metrics refs self = (Raised e, self) ->
      get_metrics (refs ++ refs') self = (Raised e, self)) /\
  (forall r,
      get_metrics [r] self =
      match get_metric r self with
      | (Returned metric, self') => (Returned [metric], self')
      | (Raised e, self') => (Raised e, self')
      end).
Proof.
  repeat split.
  - intros found found' Hrun Hrun'.
    assert (Hall : Forall2 (registered self) refs found).
    { destruct (get_metrics_returns_or_raises self refs) as [(f & Hf & Hall)|(r & He)];
        [|rewrite He in Hrun; discriminate].
      rewrite Hf in Hrun. now injection Hrun as <-. }
    assert (Hall' : Forall2 (registered self) refs' found').
    { destruct (get_metrics_returns_or_raises self refs') as [(f & Hf & Hall')|(r & He)];
        [|rewrite He in Hrun'; discriminate].
      rewrite Hf in Hrun'. now injection Hrun' as <-. }
    apply get_metrics_registered. now apply Forall2_app.
  - intros e Hrun. unfold get_metrics in *. now rewrite for_acc_app, Hrun.
  - intros r. unfold get_metrics. rewrite for_acc_step. cbn [for_acc].
    rewrite get_metric_run. unfold bind, get, dict_in, dict_getitem, ret, raise.
    now destruct (dict_get MetricReference_eqb (_metrics self) r).
Qed.

End Registry.

(** ** More about [MetricSemantics]: expansion *)

Section Expansion.

Context {WhereFilter WhereFilterSpec ColumnAssociationResolver : Type}.
Context {MetricTimeWindow TimeGranularity NonAdditiveDimensionSpec : Type}.
Context {ValidLinkableSpecResolver : Type}.

Variable create_from_where_filter : WhereFilter -> ColumnAssociationResolver -> WhereFilterSpec.
Variable WhereFilterSpec_combine : WhereFilterSpec -> WhereFilterSpec -> WhereFilterSpec.

Implicit Types
  (self : @MetricSemantics WhereFilter MetricTimeWindow TimeGranularity NonAdditiveDimensionSpec
            ValidLinkableSpecResolver)
  (metric : @Metric WhereFilter MetricTimeWindow TimeGranularity).

(** X6. [measures_for_metric] on a registered metric of any type returns one
    spec per input measure of the metric, in order: named after the input
    measure, with the non-additive dimension spec recorded for its measure
    reference, the input measure's filter resolved as constraint and the
    input measure's alias; a metric without input measures gives the empty
    tuple.  On an unregistered reference it raises [MetricNotFoundError].
    [self] is left as it was. *)
Theorem measures_for_metric_per_input_measure self (r : MetricReference)
    (column_association_resolver : ColumnAssociationResolver) :
  (forall metric,
      registered self r metric ->
      exists specs,
        measures_for_metric create_from_where_filter r column_association_resolver self =
          (Returned specs, self) /\
        Forall2 (fun input_measure spec =>
                   MeasureSpec_element_name (MetricInputMeasureSpec_measure_spec spec) =
                     MetricInputMeasure_name input_measure /\
                   MeasureSpec_non_additive_dimension_spec
                     (MetricInputMeasureSpec_measure_spec spec) =
                     dict_get MeasureReference_eqb
                       (SemanticModelSemantics_non_additive_dimension_specs_by_measure
                          (_semantic_model_semantics self))
                       (MetricInputMeasure_measure_reference input_measure) /\
                   MetricInputMeasureSpec_constraint spec =
                     option_map (fun where_filter =>
                                   create_from_where_filter where_filter
                                     column_association_resolver)
                                (MetricInputMeasure_filter input_measure) /\
                   MetricInputMeasureSpec_alias spec = MetricInputMeasure_alias input_measure)
                (Metric_input_measures metric) specs) /\
  (unregistered self r ->
   measures_for_metric create_from_where_filter r column_association_resolver self =
     (Raised (MetricNotFoundError r), self)).
Proof.
  split.
  - intros metric Hr. eexists. split.
    + exact (measures_for_metric_run create_from_where_filter self r metric
               column_association_resolver Hr).
    + induction (Metric_input_measures metric) as [|im ims IH]; cbn; constructor.
      * cbn. repeat split.
      * exact IH.
  - intros Hr. unfold measures_for_metric. unfold bind at 1.
    now rewrite (get_metric_unregistered self r Hr).
Qed.

(** X7. [contains_cumulative_or_time_offset_metric] stops at the first
    reference that decides: after references that are registered to metrics
    neither cumulative nor derived with an offset input, an unregistered
    reference makes it raise [MetricNotFoundError] for that reference, and a
    reference registered to a cumulative or offset metric makes it return
    [True], whatever follows (unregistered references included). *)
Theorem contains_cumulative_or_time_offset_metric_first_decides self
    (before : list MetricReference) (r : MetricReference) (after : list MetricReference) :
  Forall (fun r' => exists metric,
                      registered self r' metric /\ ~ cumulative_or_time_offset metric) before ->
  (unregistered self r ->
   contains_cumulative_or_time_offset_metric (before ++ r :: after) self =
     (Raised (MetricNotFoundError r), self)) /\
  (forall metric,
      registered self r metric -> cumulative_or_time_offset metric ->
      contains_cumulative_or_time_offset_metric (before ++ r :: after) self =
        (Returned true, self)).
Proof.
  intros Hbefore.
  assert (Hreg : Forall (fun r' => exists metric, registered self r' metric) before).
  { eapply Forall_impl; [|exact Hbefore]. intros r' (m & Hm & _). now exists m. }
  unfold contains_cumulative_or_time_offset_metric. unfold bind at 1 3.
  rewrite for_in_app.
  destruct (metric_loop self before Hreg) as [[_ (r' & m & Hin & Hr' & Hyes)]|[-> _]].
  { exfalso. rewrite Forall_forall in Hbefore.
    destruct (Hbefore r' Hin) as (m' & Hm' & Hno).
    unfold registered in Hr', Hm'. assert (m = m') by congruence. subst. contradiction. }
  rewrite for_in_step. split.
  - intros Hr. unfold bind at 1. now rewrite (get_metric_unregistered self r Hr).
  - intros metric Hr Hyes.
    destruct (metric_loop_body_registered self r metric Hr) as [[-> _]|[_ Hno]];
      [reflexivity|contradiction].
Qed.

(** X8. [metric_input_specs_for_metric] raises [MetricNotFoundError] for the
    metric reference itself when it is not registered, and otherwise for the
    reference of the first input metric that is not registered; a registered
    metric without input metrics gives the empty tuple.  [self] is left as it
    was. *)
Theorem metric_input_specs_for_metric_not_found self (r : MetricReference)
    (column_association_resolver : ColumnAssociationResolver) :
  (unregistered self r ->
   metric_input_specs_for_metric create_from_where_filter WhereFilterSpec_combine
     r column_association_resolver self = (Raised (MetricNotFoundError r), self)) /\
  (forall metric before input_metric after,
      registered self r metric ->
      Metric_input_metrics metric = before ++ input_metric :: after ->
      Forall (fun input_metric =>
                exists original, registered self (MetricInput_as_reference input_metric) original)
             before ->
      unregistered self (MetricInput_as_reference input_metric) ->
      metric_input_specs_for_metric create_from_where_filter WhereFilterSpec_combine
        r column_association_resolver self =
        (Raised (MetricNotFoundError (MetricInput_as_reference input_metric)), self)) /\
  (forall metric,
      registered self r metric ->
      Metric_input_metrics metric = [] ->
      metric_input_specs_for_metric create_from_where_filter WhereFilterSpec_combine
        r column_association_resolver self = (Returned [], self)).
Proof.
  repeat split.
  - intros Hr. unfold metric_input_specs_for_metric. unfold bind at 1.
    now rewrite (get_metric_unregistered self r Hr).
  - intros metric before input_metric after Hr Hsplit Hbefore Hun.
    unfold metric_input_specs_for_metric. unfold bind at 1.
    rewrite (get_metric_registered self r metric Hr), Hsplit, for_acc_app.
    destruct (input_metric_loop create_from_where_filter WhereFilterSpec_combine self
                column_association_resolver before Hbefore []) as (specs & Hrun & _).
    match goal with
    | |- match ?loop with _ => _ end = _ =>
        assert (Hloop : loop = (Returned ([] ++ specs), self)) by exact Hrun;
        rewrite Hloop
    end.
    rewrite for_acc_step. unfold bind at 1.
    now rewrite (get_metric_unregistered self _ Hun).
  - intros metric Hr Hnone.
    unfold metric_input_specs_for_metric. unfold bind at 1.
    now rewrite (get_metric_registered self r metric Hr), Hnone.
Qed.

End Expansion.

(** ** More about [DataSource] *)

Definition validity_start_message : string :=
  "Found more than one validity start dimension. This should have been blocked in validation!".

Definition validity_end_message : string :=
  "Found more than one validity end dimension. This should have been blocked in validation!".

(** The two accessors fail their assertion exactly when the invariant is
    broken, and fail in no other way. *)
Lemma unique_dimension_accessor_raises (P : Dimension -> bool) (message : string)
    (dims : list Dimension) :
  let result :=
    match filter P dims with
    | [] => Returned None
    | first :: _ =>
        if Nat.eqb (List.length (filter P dims)) 1
        then Returned (Some first)
        else Raised (AssertionError message)
    end in
  (result = Raised (AssertionError message) <-> ~ at_most_one P dims) /\
  (forall e, result = Raised e -> e = AssertionError message) /\
  (forall d, result = Returned (Some d) -> filter P dims = [d]).
Proof.
  cbn zeta. destruct (filter P dims) as [|a [|b rest]] eqn:Hf; cbn.
  - repeat split; try discriminate.
    intros Hno. exfalso. apply Hno. apply at_most_one_count. rewrite Hf. cbn. lia.
  - repeat split; try discriminate.
    + intros Hno. exfalso. apply Hno. apply at_most_one_count. rewrite Hf. cbn. lia.
    + now intros d [= <-].
  - repeat split; try discriminate.
    + intros _ Hone.
      destruct (filter_at_most_one P dims Hone) as [[Hnil _]|(d & Hd & _)]; congruence.
    + now intros e [= <-].
Qed.

(** X9. [validity_start_dimension] fails its assertion exactly when two or
    more dimensions of the data source are marked as validity start, raises
    nothing else, and a dimension it returns is the only one so marked; the
    same holds of [validity_end_dimension] and the end mark. *)
Theorem validity_dimension_assertion (self : DataSource) :
  ((validity_start_dimension self = Raised (AssertionError validity_start_message) <->
    ~ at_most_one is_validity_start (DataSource_dimensions self)) /\
   (forall e, validity_start_dimension self = Raised e ->
              e = AssertionError validity_start_message) /\
   (forall d, validity_start_dimension self = Returned (Some d) ->
              filter is_validity_start (DataSource_dimensions self) = [d]))
  /\
  ((validity_end_dimension self = Raised (AssertionError validity_end_message) <->
    ~ at_most_one is_validity_end (DataSource_dimensions self)) /\
   (forall e, validity_end_dimension self = Raised e ->
              e = AssertionError validity_end_message) /\
   (forall d, validity_end_dimension self = Returned (Some d) ->
              filter is_validity_end (DataSource_dimensions self) = [d])).
Proof.
  split.
  - exact (unique_dimension_accessor_raises is_validity_start validity_start_message _).
  - exact (unique_dimension_accessor_raises is_validity_end validity_end_message _).
Qed.

Lemma filter_nil_iff {A} (P : A -> bool) (l : list A) :
  filter P l = [] <-> forall x, In x l -> P x = false.
Proof.
  induction l as [|a l IH]; cbn.
  - split; [intros _ ? []|reflexivity].
  - destruct (P a) eqn:Pa.
    + split; [discriminate|]. intros H. specialize (H a (or_introl eq_refl)). congruence.
    + rewrite IH. split.
      * intros H x [<-|Hx]; auto.
      * intros H x Hx. apply H. now right.
Qed.

Lemma is_validity_start_has_params (d : Dimension) :
  is_validity_start d = true -> has_validity_params d = true.
Proof.
  unfold is_validity_start, has_validity_params.
  now destruct (Dimension_validity_params d).
Qed.

Lemma is_validity_end_has_params (d : Dimension) :
  is_validity_end d = true -> has_validity_params d = true.
Proof.
  unfold is_validity_end, has_validity_params.
  now destruct (Dimension_validity_params d).
Qed.

(** X10. When [has_validity_dimensions] is false, both validity accessors
    return [None]; a dimension that one of them returns is a dimension of the
    data source carrying the respective mark, and [has_validity_dimensions]
    is then true. *)
Theorem has_validity_dimensions_accessors (self : DataSource) :
  (has_validity_dimensions self = false ->
   validity_start_dimension self = Returned None /\
   validity_end_dimension self = Returned None) /\
  (forall d, validity_start_dimension self = Returned (Some d) ->
     In d (DataSource_dimensions self) /\ is_validity_start d = true /\
     has_validity_dimensions self = true) /\
  (forall d, validity_end_dimension self = Returned (Some d) ->
     In d (DataSource_dimensions self) /\ is_validity_end d = true /\
     has_validity_dimensions self = true).
Proof.
  unfold has_validity_dimensions. repeat apply conj.
  - intros Hnone.
    assert (Hall : forall d, In d (DataSource_dimensions self) -> has_validity_params d = false).
    { intros d Hd. destruct (has_validity_params d) eqn:E; [|reflexivity].
      assert (existsb has_validity_params (DataSource_dimensions self) = true)
        by (apply existsb_exists; now exists d).
      congruence. }
    unfold validity_start_dimension, validity_end_dimension. split.
    + assert (Hf : filter is_validity_start (DataSource_dimensions self) = []).
      { apply filter_nil_iff. intros d Hd. destruct (is_validity_start d) eqn:E; [|reflexivity].
        apply is_validity_start_has_params in E. rewrite (Hall d Hd) in E. discriminate. }
      now rewrite Hf.
    + assert (Hf : filter is_validity_end (DataSource_dimensions self) = []).
      { apply filter_nil_iff. intros d Hd. destruct (is_validity_end d) eqn:E; [|reflexivity].
        apply is_validity_end_has_params in E. rewrite (Hall d Hd) in E. discriminate. }
      now rewrite Hf.
  - intros d Hret.
    apply (unique_dimension_accessor_raises is_validity_start validity_start_message) in Hret.
    assert (Hin : In d (filter is_validity_start (DataSource_dimensions self)))
      by (rewrite Hret; now left).
    apply filter_In in Hin as [Hin Hd]. repeat split; try assumption.
    apply existsb_exists. exists d. split; [assumption|now apply is_validity_start_has_params].
  - intros d Hret.
    apply (unique_dimension_accessor_raises is_validity_end validity_end_message) in Hret.
    assert (Hin : In d (filter is_validity_end (DataSource_dimensions self)))
      by (rewrite Hret; now left).
    apply filter_In in Hin as [Hin Hd]. repeat split; try assumption.
    apply existsb_exists. exists d. split; [assumption|now apply is_validity_end_has_params].
Qed.

(** [ValueError], which [partition] and the lookups raise. *)
Inductive or_ValueError (A : Type) : Type :=
  | Value (a : A)
  | ValueError (message : string).
Arguments Value {A} a.
Arguments ValueError {A} message.

Definition partition (self : DataSource) : or_ValueError (option Dimension) :=
  let partitions := partitions self in
  match partitions with
  | [] => Value None
  | first :: _ =>
      if Nat.ltb 1 (List.length partitions)
      then ValueError ("too many partitions for data source " ++ DataSource_name self)%string
      else Value (Some first)
  end.

(** X11. [partition] returns [None] exactly when no dimension of the data
    source is a partition, returns a dimension exactly when it is the only
    partition, and raises [ValueError] (naming the data source) exactly when
    two or more dimensions are partitions. *)
Theorem partition_cases (self : DataSource) :
  (partition self = Value None <->
   forall d, In d (DataSource_dimensions self) -> Dimension_is_partition d = false) /\
  (forall d, partition self = Value (Some d) <-> partitions self = [d]) /\
  (partition self = ValueError ("too many partitions for data source " ++ DataSource_name self)%string
   <-> ~ at_most_one Dimension_is_partition (DataSource_dimensions self)) /\
  (forall message, partition self = ValueError message ->
     message = ("too many partitions for data source " ++ DataSource_name self)%string).
Proof.
  unfold partition. rewrite <- filter_nil_iff. fold (partitions self).
  assert (Hcount : at_most_one Dimension_is_partition (DataSource_dimensions self) <->
                   List.length (partitions self) <= 1).
  { split; [|apply at_most_one_count]. intros H.
    destruct (filter_at_most_one _ _ H) as [[Hf _]|(d & Hf & _)];
      unfold partitions; rewrite Hf; cbn; lia. }
  destruct (partitions self) as [|a [|b rest]]; cbn -[String.append] in *;
    repeat match goal with
           | |- _ /\ _ => split
           | |- _ <-> _ => split
           | |- forall _, _ => intro
           end;
    try discriminate; try congruence.
  all: try (exfalso; match goal with H : ~ _ |- _ => apply H, Hcount; lia end).
  intros Hone. apply Hcount in Hone. lia.
Qed.

(** *** Lookups by reference

    [DataSource.entities] and [DataSource.measures], the classes [Entity] and
    [Measure], the class [LinkableElementReference] with its text form, and
    the [reference] properties of the three element classes are declared
    outside the files at hand: they are parameters here. *)

Record DataSourceReference : Type := { data_source_name : string }.

Definition reference (self : DataSource) : DataSourceReference :=
  {| data_source_name := DataSource_name self |}.

Lemma MeasureReference_eqb_eq (a b : MeasureReference) :
  MeasureReference_eqb a b = true <-> a = b.
Proof.
  unfold MeasureReference_eqb. rewrite String.eqb_eq.
  destruct a, b; cbn. split; [now intros ->|now intros [=]].
Qed.

(** [for x in xs: if x.reference == r: return x], as a search. *)
Lemma find_by_reference {A R : Type} (reference_of : A -> R) (eqb : R -> R -> bool) :
  (forall a b, eqb a b = true <-> a = b) ->
  forall (xs : list A) (r : R),
    (forall x, find (fun y => eqb (reference_of y) r) xs = Some x ->
               In x xs /\ reference_of x = r) /\
    (find (fun y => eqb (reference_of y) r) xs = None <-> ~ In r (map reference_of xs)) /\
    (forall before x after,
        xs = before ++ x :: after -> reference_of x = r ->
        ~ In r (map reference_of before) ->
        find (fun y => eqb (reference_of y) r) xs = Some x).
Proof.
  intros Heqb xs r. split; [|split].
  - intros x Hfind. apply find_some in Hfind as [Hin Hx]. split; [assumption|now apply Heqb].
  - split.
    + intros Hnone Hin. apply in_map_iff in Hin as (x & Hx & Hin).
      apply (find_none _ _ Hnone) in Hin. apply Heqb in Hx. congruence.
    + intros Hnin. destruct (find _ xs) as [x|] eqn:Hfind; [|reflexivity].
      apply find_some in Hfind as [Hin Hx]. apply Heqb in Hx.
      exfalso. apply Hnin. rewrite <- Hx. now apply in_map.
  - intros before x after -> Hx Hnin.
    induction before as [|b before IH]; cbn.
    + apply Heqb in Hx. now rewrite Hx.
    + destruct (eqb (reference_of b) r) eqn:E.
      * apply Heqb in E. exfalso. apply Hnin. now left.
      * apply IH. intros Hin. apply Hnin. now right.
Qed.

Lemma find_by_reference_unique {A R : Type} (reference_of : A -> R) (eqb : R -> R -> bool) :
  (forall a b, eqb a b = true <-> a = b) ->
  forall xs : list A,
    NoDup (map reference_of xs) ->
    forall x, In x xs -> find (fun y => eqb (reference_of y) (reference_of x)) xs = Some x.
Proof.
  intros Heqb xs Hnd x Hin.
  apply in_split in Hin as (before & after & ->).
  apply (find_by_reference reference_of eqb Heqb _ _) with (before := before) (after := after);
    [reflexivity|reflexivity|].
  rewrite map_app in Hnd. cbn in Hnd. apply NoDup_remove_2 in Hnd.
  intros Hin. apply Hnd. apply in_or_app. now left.
Qed.

Section Lookups.

Context {Entity Measure LinkableElementReference : Type}.

(** References are dataclasses: [==] on them decides equality. *)
Variable LinkableElementReference_eq_dec :
  forall a b : LinkableElementReference, {a = b} + {a <> b}.

(** The text an f-string shows for a reference. *)
Variable LinkableElementReference_str : LinkableElementReference -> string.

Variable DataSource_entities : DataSource -> list Entity.
Variable DataSource_measures : DataSource -> list Measure.
Variable Entity_reference : Entity -> LinkableElementReference.
Variable Dimension_reference : Dimension -> LinkableElementReference.
Variable Measure_reference : Measure -> MeasureReference.

Definition LinkableElementReference_eqb (a b : LinkableElementReference) : bool :=
  if LinkableElementReference_eq_dec a b then true else false.

Lemma LinkableElementReference_eqb_eq (a b : LinkableElementReference) :
  LinkableElementReference_eqb a b = true <-> a = b.
Proof.
  unfold LinkableElementReference_eqb.
  destruct (LinkableElementReference_eq_dec a b); split; congruence.
Qed.

Definition entity_references (self : DataSource) : list LinkableElementReference :=
  map Entity_reference (DataSource_entities self).

Definition dimension_references (self : DataSource) : list LinkableElementReference :=
  map Dimension_reference (DataSource_dimensions self).

Definition measure_references (self : DataSource) : list MeasureReference :=
  map Measure_reference (DataSource_measures self).

Definition get_measure (self : DataSource) (measure_reference : MeasureReference)
  : or_ValueError Measure :=
  match find (fun measure => MeasureReference_eqb (Measure_reference measure) measure_reference)
             (DataSource_measures self) with
  | Some measure => Value measure
  | None =>
      ValueError ("No dimension with name (" ++ measure_element_name measure_reference
                  ++ ") in data source with name (" ++ DataSource_name self ++ ")")%string
  end.

Definition get_dimension (self : DataSource) (dimension_reference : LinkableElementReference)
  : or_ValueError Dimension :=
  match find (fun dim => LinkableElementReference_eqb (Dimension_reference dim) dimension_reference)
             (DataSource_dimensions self) with
  | Some dim => Value dim
  | None =>
      ValueError ("No dimension with name (" ++ LinkableElementReference_str dimension_reference
                  ++ ") in data source with name (" ++ DataSource_name self ++ ")")%string
  end.

Definition get_entity (self : DataSource) (entity_reference : LinkableElementReference)
  : or_ValueError Entity :=
  match find (fun entity => LinkableElementReference_eqb (Entity_reference entity) entity_reference)
             (DataSource_entities self) with
  | Some entity => Value entity
  | None =>
      ValueError ("No entity with name (" ++ LinkableElementReference_str entity_reference
                  ++ ") in data source with name (" ++ DataSource_name self ++ ")")%string
  end.

(** X12. [get_dimension] returns a dimension of the data source whose
    reference is the one asked for: the first such in the sequence of
    dimensions, hence the dimension itself when asked for the reference of a
    dimension of a data source whose dimension references are pairwise
    distinct.  It returns exactly for the references listed by
    [dimension_references], and raises [ValueError] for any other. *)
Theorem get_dimension_lookup (self : DataSource) :
  (forall r dim, get_dimension self r = Value dim ->
     In dim (DataSource_dimensions self) /\ Dimension_reference dim = r) /\
  (forall r, In r (dimension_references self) <-> exists dim, get_dimension self r = Value dim) /\
  (forall r, ~ In r (dimension_references self) ->
     get_dimension self r =
     ValueError ("No dimension with name (" ++ LinkableElementReference_str r
                 ++ ") in data source with name (" ++ DataSource_name self ++ ")")%string) /\
  (forall before dim after,
     DataSource_dimensions self = before ++ dim :: after ->
     ~ In (Dimension_reference dim) (map Dimension_reference before) ->
     get_dimension self (Dimension_reference dim) = Value dim) /\
  (NoDup (dimension_references self) ->
   forall dim, In dim (DataSource_dimensions self) ->
     get_dimension self (Dimension_reference dim) = Value dim).
Proof.
  unfold get_dimension, dimension_references.
  pose proof (find_by_reference Dimension_reference LinkableElementReference_eqb
                LinkableElementReference_eqb_eq (DataSource_dimensions self)) as H.
  repeat apply conj.
  - intros r dim. destruct (H r) as (Hsome & _ & _).
    destruct (find _ _) as [d|]; [|discriminate]. intros [= <-]. now apply Hsome.
  - intros r. destruct (H r) as (_ & Hnone & _). split.
    + intros Hin. destruct (find _ _) as [d|]; [now exists d|].
      exfalso. now apply (proj1 Hnone).
    + intros [dim Hdim]. destruct (find _ _) as [d|] eqn:E; [|discriminate].
      destruct (in_dec LinkableElementReference_eq_dec r
                  (map Dimension_reference (DataSource_dimensions self))) as [Hin|Hnin];
        [assumption|]. apply Hnone in Hnin. congruence.
  - intros r Hnin. destruct (H r) as (_ & Hnone & _). apply Hnone in Hnin. now rewrite Hnin.
  - intros before dim after Hsplit Hnin. destruct (H (Dimension_reference dim)) as (_ & _ & Hfirst).
    now rewrite (Hfirst before dim after Hsplit eq_refl Hnin).
  - intros Hnd dim Hin.
    now rewrite (find_by_reference_unique Dimension_reference LinkableElementReference_eqb
                   LinkableElementReference_eqb_eq _ Hnd dim Hin).
Qed.

(** X13. [get_entity] returns an entity of the data source whose reference
    is the one asked for: the first such in the sequence of entities, hence
    the entity itself when the entity references of the data source are
    pairwise distinct.  It returns exactly for the references listed by
    [entity_references], and raises [ValueError] for any other. *)
Theorem get_entity_lookup (self : DataSource) :
  (forall r entity, get_entity self r = Value entity ->
     In entity (DataSource_entities self) /\ Entity_reference entity = r) /\
  (forall r, In r (entity_references self) <-> exists entity, get_entity self r = Value entity) /\
  (forall r, ~ In r (entity_references self) ->
     get_entity self r =
     ValueError ("No entity with name (" ++ LinkableElementReference_str r
                 ++ ") in data source with name (" ++ DataSource_name self ++ ")")%string) /\
  (forall before entity after,
     DataSource_entities self = before ++ entity :: after ->
     ~ In (Entity_reference entity) (map Entity_reference before) ->
     get_entity self (Entity_reference entity) = Value entity) /\
  (NoDup (entity_references self) ->
   forall entity, In entity (DataSource_entities self) ->
     get_entity self (Entity_reference entity) = Value entity).
Proof.
  unfold get_entity, entity_references.
  pose proof (find_by_reference Entity_reference LinkableElementReference_eqb
                LinkableElementReference_eqb_eq (DataSource_entities self)) as H.
  repeat apply conj.
  - intros r entity. destruct (H r) as (Hsome & _ & _).
    destruct (find _ _) as [d|]; [|discriminate]. intros [= <-]. now apply Hsome.
  - intros r. destruct (H r) as (_ & Hnone & _). split.
    + intros Hin. destruct (find _ _) as [d|]; [now exists d|].
      exfalso. now apply (proj1 Hnone).
    + intros [entity Hentity]. destruct (find _ _) as [d|] eqn:E; [|discriminate].
      destruct (in_dec LinkableElementReference_eq_dec r
                  (map Entity_reference (DataSource_entities self))) as [Hin|Hnin];
        [assumption|]. apply Hnone in Hnin. congruence.
  - intros r Hnin. destruct (H r) as (_ & Hnone & _). apply Hnone in Hnin. now rewrite Hnin.
  - intros before entity after Hsplit Hnin.
    destruct (H (Entity_reference entity)) as (_ & _ & Hfirst).
    now rewrite (Hfirst before entity after Hsplit eq_refl Hnin).
  - intros Hnd entity Hin.
    now rewrite (find_by_reference_unique Entity_reference LinkableElementReference_eqb
                   LinkableElementReference_eqb_eq _ Hnd entity Hin).
Qed.

(** X14. [get_measure] returns a measure of the data source whose reference
    is the one asked for: the first such in the sequence of measures, hence
    the measure itself when the measure references of the data source are
    pairwise distinct.  It returns exactly for the references listed by
    [measure_references]; for any other it raises [ValueError], whose message
    speaks of a dimension with the element name of the reference. *)
Theorem get_measure_lookup (self : DataSource) :
  (forall r measure, get_measure self r = Value measure ->
     In measure (DataSource_measures self) /\ Measure_reference measure = r) /\
  (forall r, In r (measure_references self) <-> exists measure, get_measure self r = Value measure) /\
  (forall r, ~ In r (measure_references self) ->
     get_measure self r =
     ValueError ("No dimension with name (" ++ measure_element_name r
                 ++ ") in data source with name (" ++ DataSource_name self ++ ")")%string) /\
  (forall before measure after,
     DataSource_measures self = before ++ measure :: after ->
     ~ In (Measure_reference measure) (map Measure_reference before) ->
     get_measure self (Measure_reference measure) = Value measure) /\
  (NoDup (measure_references self) ->
   forall measure, In measure (DataSource_measures self) ->
     get_measure self (Measure_reference measure) = Value measure).
Proof.
  unfold get_measure, measure_references.
  pose proof (find_by_reference Measure_reference MeasureReference_eqb
                MeasureReference_eqb_eq (DataSource_measures self)) as H.
  repeat apply conj.
  - intros r measure. destruct (H r) as (Hsome & _ & _).
    destruct (find _ _) as [d|]; [|discriminate]. intros [= <-]. now apply Hsome.
  - intros r. destruct (H r) as (_ & Hnone & _). split.
    + intros Hin. destruct (find _ _) as [d|]; [now exists d|].
      exfalso. now apply (proj1 Hnone).
    + intros [measure Hmeasure]. destruct (find _ _) as [d|] eqn:E; [|discriminate].
      apply find_some in E as [Hin Hd]. apply MeasureReference_eqb_eq in Hd.
      rewrite <- Hd. now apply in_map.
  - intros r Hnin. destruct (H r) as (_ & Hnone & _). apply Hnone in Hnin. now rewrite Hnin.
  - intros before measure after Hsplit Hnin.
    destruct (H (Measure_reference measure)) as (_ & _ & Hfirst).
    now rewrite (Hfirst before measure after Hsplit eq_refl Hnin).
  - intros Hnd measure Hin.
    now rewrite (find_by_reference_unique Measure_reference MeasureReference_eqb
                   MeasureReference_eqb_eq _ Hnd measure Hin).
Qed.

End Lookups.

(** ** The further theorems at the sample manifest *)

Definition max_bookings : SampleMetric := measure_metric "max_bookings" SIMPLE None "bookings".

(** A derived metric over a metric that is not in the manifest: [add_metric]
    checks measures only, so it is registered all the same. *)
Definition views_doubled : SampleMetric :=
  derived_metric "views_doubled" None [input_metric "views" None None None].

Definition sample_self_with (metric : SampleMetric) : SampleMetricSemantics :=
  set_metrics sample_self (_metrics sample_self ++ [entry metric]).

Definition duplicate_model : @UserConfiguredModel string (nat * string) string :=
  {| UserConfiguredModel_metrics := [bookings; revenue_all_time; bookings; views] |}.

Definition missing_measure_model : @UserConfiguredModel string (nat * string) string :=
  {| UserConfiguredModel_metrics := [bookings; views; bookings] |}.

Example add_metric_views_doubled :
  add_metric views_doubled sample_self = (Returned tt, sample_self_with views_doubled).
Proof. reflexivity. Qed.

Lemma add_metric_then_lookup_witness :
  add_metric max_bookings sample_self = (Returned tt, sample_self_with max_bookings) /\
  get_metric (ref "max_bookings") (sample_self_with max_bookings) =
    (Returned max_bookings, sample_self_with max_bookings) /\
  fst (get_metric (ref "bookings") (sample_self_with max_bookings)) =
    fst (get_metric (ref "bookings") sample_self).
Proof.
  assert (H : add_metric max_bookings sample_self = (Returned tt, sample_self_with max_bookings))
    by reflexivity.
  destruct (add_metric_then_lookup sample_self _ max_bookings H) as (Hnew & Hold & _).
  split; [exact H|]. split; [exact Hnew|].
  apply Hold. cbn. discriminate.
Defined.

Lemma init_succeeds_iff_witness :
  init sample_resolver_init sample_model sample_semantic_model_semantics = Returned sample_self /\
  init failing_resolver_init sample_model sample_semantic_model_semantics = Raised KeyError.
Proof.
  assert (Hnd : NoDup (map Metric_name (UserConfiguredModel_metrics sample_model))).
  { cbn. repeat constructor; cbn; intuition discriminate. }
  assert (Hall : Forall (measures_exist sample_semantic_model_semantics)
                   (UserConfiguredModel_metrics sample_model)).
  { repeat constructor. }
  split.
  - apply (proj1 (init_succeeds_iff sample_resolver_init sample_model
                    sample_semantic_model_semantics)).
    split; [exact Hnd|]. split; [exact Hall|]. exists tt. split; reflexivity.
  - apply (proj2 (init_succeeds_iff failing_resolver_init sample_model
                    sample_semantic_model_semantics) Hnd Hall).
    reflexivity.
Defined.

Lemma init_reports_first_invalid_witness :
  init sample_resolver_init duplicate_model sample_semantic_model_semantics =
    Raised (DuplicateMetricError "bookings") /\
  init sample_resolver_init missing_measure_model sample_semantic_model_semantics =
    Raised (NonExistentMeasureError "views" (measure_ref "views")).
Proof.
  split.
  - apply (proj1 (init_reports_first_invalid sample_resolver_init duplicate_model
                    sample_semantic_model_semantics
                    [bookings; revenue_all_time] bookings [views] eq_refl
                    ltac:(repeat constructor; cbn; intuition discriminate)
                    ltac:(repeat constructor))).
    cbn. now left.
  - apply (proj2 (init_reports_first_invalid sample_resolver_init missing_measure_model
                    sample_semantic_model_semantics
                    [bookings] views [bookings] eq_refl
                    ltac:(repeat constructor; cbn; intuition discriminate)
                    ltac:(repeat constructor))).
    + cbn. intuition discriminate.
    + reflexivity.
Defined.

Lemma init_metric_references_round_trip_witness :
  init sample_resolver_init sample_model sample_semantic_model_semantics = Returned sample_self /\
  exists refs,
    metric_references sample_self = (Returned refs, sample_self) /\
    List.length refs = List.length (UserConfiguredModel_metrics sample_model) /\
    get_metrics refs sample_self =
      (Returned (UserConfiguredModel_metrics sample_model), sample_self).
Proof.
  split; [reflexivity|].
  exact (proj1 (init_metric_references_round_trip sample_resolver_init sample_model
                  sample_semantic_model_semantics sample_self eq_refl)).
Defined.

Lemma get_metrics_app_witness :
  get_metrics ([ref "bookings"] ++ [ref "revenue_all_time"]) sample_self =
    (Returned ([bookings] ++ [revenue_all_time]), sample_self) /\
  get_metrics ([ref "views"] ++ [ref "bookings"]) sample_self =
    (Raised (MetricNotFoundError (ref "views")), sample_self).
Proof.
  split.
  - apply (proj1 (get_metrics_app sample_self [ref "bookings"] [ref "revenue_all_time"]));
      reflexivity.
  - apply (proj1 (proj2 (get_metrics_app sample_self [ref "views"] [ref "bookings"]))).
    reflexivity.
Defined.

Lemma measures_for_metric_per_input_measure_witness :
  measures_for_metric sample_create_from_where_filter (ref "views") tt sample_self =
    (Raised (MetricNotFoundError (ref "views")), sample_self).
Proof.
  apply (proj2 (measures_for_metric_per_input_measure sample_create_from_where_filter
                  sample_self (ref "views") tt)).
  reflexivity.
Defined.

Lemma contains_cumulative_or_time_offset_metric_first_decides_witness :
  contains_cumulative_or_time_offset_metric
    ([ref "bookings"] ++ ref "views" :: [ref "revenue_all_time"]) sample_self =
    (Raised (MetricNotFoundError (ref "views")), sample_self) /\
  contains_cumulative_or_time_offset_metric
    ([ref "bookings"] ++ ref "revenue_all_time" :: [ref "views"]) sample_self =
    (Returned true, sample_self).
Proof.
  assert (Hbefore : Forall (fun r' => exists metric : SampleMetric,
                              registered sample_self r' metric /\
                              ~ cumulative_or_time_offset metric) [ref "bookings"]).
  { constructor; [|constructor]. exists bookings. split; [reflexivity|].
    intros [H|[H _]]; discriminate. }
  split.
  - apply (proj1 (contains_cumulative_or_time_offset_metric_first_decides sample_self
                    [ref "bookings"] (ref "views") [ref "revenue_all_time"] Hbefore)).
    reflexivity.
  - apply (proj2 (contains_cumulative_or_time_offset_metric_first_decides sample_self
                    [ref "bookings"] (ref "revenue_all_time") [ref "views"] Hbefore)
             revenue_all_time).
    + reflexivity.
    + now left.
Defined.

Lemma metric_input_specs_for_metric_not_found_witness :
  metric_input_specs_for_metric sample_create_from_where_filter sample_combine
    (ref "views") tt sample_self = (Raised (MetricNotFoundError (ref "views")), sample_self) /\
  metric_input_specs_for_metric sample_create_from_where_filter sample_combine
    (ref "views_doubled") tt (sample_self_with views_doubled) =
    (Raised (MetricNotFoundError (ref "views")), sample_self_with views_doubled).
Proof.
  split.
  - apply (proj1 (metric_input_specs_for_metric_not_found sample_create_from_where_filter
                    sample_combine sample_self (ref "views") tt)).
    reflexivity.
  - apply (proj1 (proj2 (metric_input_specs_for_metric_not_found
                           sample_create_from_where_filter sample_combine
                           (sample_self_with views_doubled) (ref "views_doubled") tt))
             views_doubled [] (input_metric "views" None None None) []).
    + reflexivity.
    + reflexivity.
    + constructor.
    + reflexivity.
Defined.

Definition bookings_source : DataSource :=
  {| DataSource_name := "bookings_source";
     DataSource_dimensions :=
       [ {| Dimension_name := "is_instant";
            Dimension_validity_params := None;
            Dimension_is_partition := false |};
         {| Dimension_name := "ds_partitioned";
            Dimension_validity_params := None;
            Dimension_is_partition := true |} ] |}.

Definition partitioned_twice : DataSource :=
  {| DataSource_name := "bookings_source";
     DataSource_dimensions := partitions bookings_source ++ partitions bookings_source |}.

Lemma validity_dimension_assertion_witness :
  ~ at_most_one is_validity_start (DataSource_dimensions valid_from_twice) /\
  ~ ~ at_most_one is_validity_start (DataSource_dimensions listings).
Proof.
  destruct (validity_dimension_assertion valid_from_twice) as [(Htwice & _ & _) _].
  destruct (validity_dimension_assertion listings) as [(Hone & _ & _) _].
  split.
  - apply Htwice. reflexivity.
  - intros Hno. apply Hone in Hno. discriminate.
Defined.

Lemma has_validity_dimensions_accessors_witness :
  validity_start_dimension bookings_source = Returned None /\
  validity_end_dimension bookings_source = Returned None.
Proof.
  apply (proj1 (has_validity_dimensions_accessors bookings_source)). reflexivity.
Defined.

Lemma partition_cases_witness :
  ~ at_most_one Dimension_is_partition (DataSource_dimensions partitioned_twice) /\
  partitions bookings_source =
    [ {| Dimension_name := "ds_partitioned";
         Dimension_validity_params := None;
         Dimension_is_partition := true |} ].
Proof.
  split.
  - apply (proj1 (proj2 (proj2 (partition_cases partitioned_twice)))). reflexivity.
  - apply (proj1 (proj2 (partition_cases bookings_source))). reflexivity.
Defined.

(** The lookups on [listings], with names for references; an f-string shows
    a reference as the dataclass prints itself. *)
Definition sample_reference_str (r : string) : string :=
  ("LinkableElementReference(element_name='" ++ r ++ "')")%string.

Definition sample_entities (_ : DataSource) : list string := ["listing"; "user"].
Definition sample_measures (_ : DataSource) : list string := ["listings"; "largest_listing"].

Lemma get_dimension_lookup_witness :
  NoDup (dimension_references Dimension_name listings) /\
  (forall dim, In dim (DataSource_dimensions listings) ->
     get_dimension string_dec sample_reference_str Dimension_name listings (Dimension_name dim)
     = Value dim) /\
  get_dimension string_dec sample_reference_str Dimension_name listings "is_instant" =
    ValueError ("No dimension with name (LinkableElementReference(element_name='is_instant'))"
                ++ " in data source with name (listings)")%string.
Proof.
  destruct (get_dimension_lookup string_dec sample_reference_str Dimension_name listings)
    as (_ & _ & Hmissing & _ & Hunique).
  assert (Hnd : NoDup (dimension_references Dimension_name listings)).
  { cbn. repeat constructor; cbn; intuition discriminate. }
  split; [exact Hnd|]. split; [exact (Hunique Hnd)|].
  apply (Hmissing "is_instant"). cbn. intuition discriminate.
Defined.

Lemma get_entity_lookup_witness :
  get_entity string_dec sample_reference_str sample_entities (fun entity => entity) listings "user"
    = Value "user" /\
  get_entity string_dec sample_reference_str sample_entities (fun entity => entity) listings "guest"
    = ValueError ("No entity with name (LinkableElementReference(element_name='guest'))"
                   ++ " in data source with name (listings)")%string.
Proof.
  destruct (get_entity_lookup string_dec sample_reference_str sample_entities (fun entity => entity)
              listings) as (_ & _ & Hmissing & Hfirst & _).
  split.
  - apply (Hfirst ["listing"] "user" []); [reflexivity|]. cbn. intuition discriminate.
  - apply (Hmissing "guest"). cbn. intuition discriminate.
Defined.

Lemma get_measure_lookup_witness :
  get_measure sample_measures measure_ref listings (measure_ref "largest_listing")
    = Value "largest_listing" /\
  get_measure sample_measures measure_ref listings (measure_ref "bookings")
    = ValueError "No dimension with name (bookings) in data source with name (listings)".
Proof.
  destruct (get_measure_lookup sample_measures measure_ref listings)
    as (_ & _ & Hmissing & Hfirst & _).
  split.
  - apply (Hfirst ["listings"] "largest_listing" []); [reflexivity|].
    cbn. intuition discriminate.
  - apply (Hmissing (measure_ref "bookings")). cbn. intuition discriminate.
Defined.

(** ** More about [MetricSemantics]: what the methods leave alone *)

Lemma bind_preserves {S A B} (m : M S A) (k : A -> M S B) (s : S) :
  snd (m s) = s -> (forall a, snd (k a s) = s) -> snd (bind m k s) = s.
Proof.
  unfold bind. destruct (m s) as [[a|e] s']; cbn; intros ->; auto.
Qed.

Lemma for_acc_preserves {S A B} (body : B -> A -> M S B) (s : S) :
  (forall acc x, snd (body acc x s) = s) ->
  forall xs acc, snd (for_acc xs acc body s) = s.
Proof.
  intros Hbody. induction xs as [|x xs IH]; intros acc; [reflexivity|].
  rewrite for_acc_step. specialize (Hbody acc x).
  destruct (body acc x s) as [[acc'|e] s']; cbn in Hbody; subst; [apply IH|reflexivity].
Qed.

Lemma for_in_preserves {S A R} (body : A -> M S (option R)) (s : S) :
  (forall x, snd (body x s) = s) ->
  forall xs, snd (for_in xs body s) = s.
Proof.
  intros Hbody. induction xs as [|x xs IH]; [reflexivity|].
  rewrite for_in_step. specialize (Hbody x).
  destruct (body x s) as [[[v|]|e] s']; cbn in Hbody; subst; [reflexivity|apply IH|reflexivity].
Qed.



Section ReadOnly.

Context {WhereFilter WhereFilterSpec ColumnAssociationResolver : Type}.
Context {MetricTimeWindow TimeGranularity NonAdditiveDimensionSpec : Type}.
Context {ValidLinkableSpecResolver : Type}.

Variable create_from_where_filter : WhereFilter -> ColumnAssociationResolver -> WhereFilterSpec.
Variable WhereFilterSpec_combine : WhereFilterSpec -> WhereFilterSpec -> WhereFilterSpec.

Implicit Types
  (self : @MetricSemantics WhereFilter MetricTimeWindow TimeGranularity NonAdditiveDimensionSpec
            ValidLinkableSpecResolver)
  (metric : @Metric WhereFilter MetricTimeWindow TimeGranularity).

Lemma get_metric_preserves self (r : MetricReference) : snd (get_metric r self) = self.
Proof.
  rewrite get_metric_run. now destruct (dict_get MetricReference_eqb (_metrics self) r).
Qed.

(** X15. The methods that answer questions about the registry leave [self]
    as it was, whether they return or raise, on registered and unregistered
    references alike. *)
Theorem query_methods_read_only self :
  (forall r, snd (get_metric r self) = self) /\
  (forall refs, snd (get_metrics refs self) = self) /\
  snd (metric_references self) = self /\
  (forall r resolver,
      snd (measures_for_metric create_from_where_filter r resolver self) = self) /\
  (forall refs, snd (contains_cumulative_or_time_offset_metric refs self) = self) /\
  (forall r resolver,
      snd (metric_input_specs_for_metric create_from_where_filter WhereFilterSpec_combine
             r resolver self) = self).
Proof.
  repeat apply conj.
  - intros r. apply get_metric_preserves.
  - intros refs. unfold get_metrics. apply for_acc_preserves. intros acc r.
    unfold bind, get, dict_in, dict_getitem, ret, raise.
    now destruct (dict_get MetricReference_eqb (_metrics self) r).
  - reflexivity.
  - intros r resolver. unfold measures_for_metric.
    apply bind_preserves; [apply get_metric_preserves|].
    intros metric. apply for_acc_preserves. reflexivity.
  - intros refs. unfold contains_cumulative_or_time_offset_metric.
    apply bind_preserves.
    + apply for_in_preserves. intros r.
      apply bind_preserves; [apply get_metric_preserves|]. intros metric.
      destruct (MetricType_eqb (Metric_type metric) CUMULATIVE); [reflexivity|].
      destruct (MetricType_eqb (Metric_type metric) DERIVED); [|reflexivity].
      apply for_in_preserves. intros i.
      now destruct (truthy (MetricInput_offset_window i) || truthy (MetricInput_offset_to_grain i)).
    + now intros [b|].
  - intros r resolver. unfold metric_input_specs_for_metric.
    apply bind_preserves; [apply get_metric_preserves|].
    intros metric. apply for_acc_preserves. intros acc i.
    apply bind_preserves; [apply get_metric_preserves|]. reflexivity.
Qed.


Lemma dict_get_two_entries_swap
    (d : @dict MetricReference (@Metric WhereFilter MetricTimeWindow TimeGranularity))
    (a b : @Metric WhereFilter MetricTimeWindow TimeGranularity) (r : MetricReference) :
  Metric_name a <> Metric_name b ->
  dict_get MetricReference_eqb ((d ++ [entry a]) ++ [entry b]) r =
  dict_get MetricReference_eqb ((d ++ [entry b]) ++ [entry a]) r.
Proof.
  intros Hne. rewrite !dict_get_app.
  destruct (dict_get MetricReference_eqb d r); [reflexivity|].
  cbn. unfold MetricReference_eqb. cbn.
  destruct (String.eqb_spec (element_name r) (Metric_name a)) as [Ha|_];
    destruct (String.eqb_spec (element_name r) (Metric_name b)) as [Hb|_];
    try reflexivity.
  congruence.
Qed.

(** X17. Two metrics that [add_metric] registers one after the other can be
    registered in the other order as well, and [get_metric] answers the same
    for every reference afterwards. *)
Theorem add_metric_order_irrelevant self self1 self2 (a b : @Metric WhereFilter MetricTimeWindow TimeGranularity) :
  add_metric a self = (Returned tt, self1) ->
  add_metric b self1 = (Returned tt, self2) ->
  exists self1' self2',
    add_metric b self = (Returned tt, self1') /\
    add_metric a self1' = (Returned tt, self2') /\
    forall r, fst (get_metric r self2') = fst (get_metric r self2).
Proof.
  intros Ha Hb.
  apply add_metric_returns in Ha as (Hua & Hea & ->).
  apply add_metric_returns in Hb as (Hub & Heb & ->).
  unfold unregistered in Hua, Hub. cbn [set_metrics _metrics _semantic_model_semantics] in *.
  rewrite dict_get_app in Hub.
  destruct (dict_get MetricReference_eqb (_metrics self) {| element_name := Metric_name b |})
    eqn:Hub'; [discriminate|].
  cbn in Hub. unfold MetricReference_eqb in Hub. cbn in Hub.
  destruct (String.eqb_spec (Metric_name b) (Metric_name a)) as [|Hne]; [discriminate|].
  exists (set_metrics self (_metrics self ++ [entry b])).
  exists (set_metrics (set_metrics self (_metrics self ++ [entry b]))
            ((_metrics self ++ [entry b]) ++ [entry a])).
  split; [|split].
  - rewrite add_metric_run.
    apply dict_in_false in Hub' as Hin. rewrite Hin.
    apply missing_measure_none in Heb. unfold missing_measure in *. cbn in Heb. rewrite Heb.
    now rewrite (dict_setitem_absent _ _ _ _ Hub').
  - rewrite add_metric_run. cbn.
    assert (Hua' : dict_get MetricReference_eqb (_metrics self ++ [entry b])
                     {| element_name := Metric_name a |} = None).
    { rewrite dict_get_entry_other; [exact Hua|]. cbn. congruence. }
    apply dict_in_false in Hua' as Hin. rewrite Hin.
    apply missing_measure_none in Hea. unfold missing_measure in *. cbn. rewrite Hea.
    now rewrite (dict_setitem_absent _ _ _ _ Hua').
  - intros r. rewrite !get_metric_run. cbn.
    rewrite (dict_get_two_entries_swap (_metrics self) b a r) by congruence.
    now destruct (dict_get MetricReference_eqb _ r).
Qed.

End ReadOnly.

Lemma query_methods_read_only_witness :
  snd (get_metrics [ref "bookings"; ref "views"] sample_self) = sample_self /\
  snd (contains_cumulative_or_time_offset_metric [ref "views"] sample_self) = sample_self.
Proof.
  destruct (query_methods_read_only sample_create_from_where_filter sample_combine sample_self)
    as (_ & Hgets & _ & _ & Hcontains & _).
  split; [apply Hgets|apply Hcontains].
Defined.


Lemma add_metric_order_irrelevant_witness :
  exists self1' self2',
    add_metric views_doubled sample_self = (Returned tt, self1') /\
    add_metric max_bookings self1' = (Returned tt, self2') /\
    forall r,
      fst (get_metric r self2') =
      fst (get_metric r
             (set_metrics (sample_self_with max_bookings)
                (_metrics (sample_self_with max_bookings) ++ [entry views_doubled]))).
Proof.
  apply (add_metric_order_irrelevant sample_self (sample_self_with max_bookings) _
           max_bookings views_doubled); reflexivity.
Defined.

Lemma element_specs_for_metrics_sorted_witness :
  element_specs_for_metrics (fun qualified_name => qualified_name)
    sample_get_linkable_elements_for_metrics [ref "bookings"; ref "views"] [] [] sample_self =
  (Raised (MetricNotFoundError (ref "views")), sample_self) /\
  exists specs,
    element_specs_for_metrics (fun qualified_name => qualified_name)
      sample_get_linkable_elements_for_metrics [ref "bookings"] [] [] sample_self =
    (Returned specs, sample_self) /\
    Permutation specs ["metric_time__day"; "listing__country_latest"; "booking__is_instant"] /\
    Sorted (fun a b => String.leb a b = true) specs.
Proof.
  split.
  - apply (proj2 (element_specs_for_metrics_sorted (fun qualified_name => qualified_name)
                    sample_get_linkable_elements_for_metrics sample_self tt
                    [ref "bookings"; ref "views"] [] [] eq_refl)).
    reflexivity.
  - destruct (proj1 (element_specs_for_metrics_sorted (fun qualified_name => qualified_name)
                       sample_get_linkable_elements_for_metrics sample_self tt
                       [ref "bookings"] [] [] eq_refl)
                _ eq_refl) as (specs & Hrun & Hperm & Hsorted & _).
    exists specs. now repeat split.
Defined.
